(** * ro.py request dispatcher: [roblox/utilities/requests.py]

    A shallow embedding of [CleanAsyncClient] and [Requests], and the
    properties of [Requests.request]: X-CSRF-Token capture, the single
    resend after a 403, the [skip_roblox] and [stream] exits and the
    translation of statuses >= 400 into exceptions.

    Python values are modelled by [Value]; [str] by [string], whose
    [lower] acts on the ASCII letters (HTTP methods and header names are
    ASCII tokens); the [kwargs] bag and the module-level table by [gmap];
    the headers of [requests] (a [CaseInsensitiveDict]) by a [gmap] keyed
    by the lowercased name.  Each coroutine is modelled by its sequential
    body: one call of [request] runs from its first line to its return or
    raise, the two [await]s being the two places where the session sends.
    Closing the session ([close], [__del__]) is not part of the model. *)

From Stdlib Require Import ZArith String Ascii List Bool Lia.
From stdpp Require Import base option gmap strings list fin_maps.

Local Set Warnings "-register-all".
Local Open Scope string_scope.
Local Open Scope Z_scope.
Local Open Scope list_scope.

(** ** Python strings *)

Definition lower_ascii (c : ascii) : ascii :=
  let n := nat_of_ascii c in
  if (Nat.leb 65 n && Nat.leb n 90)%bool then ascii_of_nat (n + 32) else c.

(** [str.lower()] *)
Fixpoint lower (s : string) : string :=
  match s with
  | EmptyString => EmptyString
  | String c s' => String (lower_ascii c) (lower s')
  end.

(** [str.startswith(prefix)] *)
Definition startswith (s pre : string) : bool := String.prefix pre s.




(** ** Python values *)

(** The values that travel through [kwargs] and that [Response.json()]
    builds: [None], [bool], [int], [str], [list], and [dict] with string
    keys (its items in insertion order).  Floats are left out: [request]
    only tests a number for truth and hands it on. *)
Inductive Value : Type :=
| VNone
| VBool (b : bool)
| VInt (n : Z)
| VStr (s : string)
| VList (l : list Value)
| VDict (items : list (string * Value)).

(** Truth value testing, as used by [if], [and]. *)
Definition truthy (v : Value) : bool :=
  match v with
  | VNone => false
  | VBool b => b
  | VInt n => negb (Z.eqb n 0)
  | VStr s => negb (String.eqb s "")
  | VList l => match l with [] => false | _ => true end
  | VDict d => match d with [] => false | _ => true end
  end.

(** [dict.get(key)] on the items of a [dict]. *)
Fixpoint items_get (items : list (string * Value)) (key : string) : Value :=
  match items with
  | [] => VNone
  | (k, v) :: rest => if String.eqb k key then v else items_get rest key
  end.

(** [dict.pop(key, default)] on a keyword bag. *)
Definition pop (key : string) (dflt : Value) (kwargs : gmap string Value)
  : Value * gmap string Value :=
  (default dflt (kwargs !! key), delete key kwargs).

(** [dict.get(key, default)] on a keyword bag. *)
Definition get_default (key : string) (dflt : Value) (kwargs : gmap string Value)
  : Value :=
  default dflt (kwargs !! key).

(** ** [requests.structures.CaseInsensitiveDict]

    Keyed by the lowercased name; each entry keeps the name as last set
    and the value. *)
Abbreviation CaseInsensitiveDict := (gmap string (string * string)).

Module CID.
Definition contains (key : string) (d : CaseInsensitiveDict) : bool :=
  match d !! lower key with Some _ => true | None => false end.

Definition get (key : string) (d : CaseInsensitiveDict) : option string :=
  snd <$> d !! lower key.

Definition setitem (key value : string) (d : CaseInsensitiveDict)
  : CaseInsensitiveDict :=
  <[lower key := (key, value)]> d.

Definition of_list (l : list (string * string)) : CaseInsensitiveDict :=
  foldl (fun d kv => setitem (fst kv) (snd kv) d) ∅ l.
End CID.

(** ** Responses and exceptions *)

(** What a call of [Response.json()] does on the body: it returns the
    decoded value, or raises [json.JSONDecodeError] (the class that
    [request] imports and catches), or raises an exception of another
    class ([RecursionError] on a body nested too deep, the decode error of
    another JSON backend, ...), named by [what]. *)
Inductive JsonCall : Type :=
| Decoded (v : Value)
| RaisesJSONDecodeError
| RaisesOther (what : string).

(** [requests.Response]: [content] is the body as received and
    [json_call] is what [Response.json()] does on it. *)
Record Response : Type := mkResponseWith {
  status_code : Z;
  resp_headers : CaseInsensitiveDict;
  content : string;
  json_call : JsonCall
}.

(** The value that [Response.json()] returns, when it returns one. *)
Definition json (r : Response) : option Value :=
  match json_call r with
  | Decoded v => Some v
  | RaisesJSONDecodeError | RaisesOther _ => None
  end.

(** A response whose body decodes to [v] ([Some v]), or on which
    [Response.json()] raises [json.JSONDecodeError] ([None]). *)
Definition mkResponse (status_code : Z) (resp_headers : CaseInsensitiveDict)
    (content : string) (body : option Value) : Response :=
  mkResponseWith status_code resp_headers content
    match body with
    | Some v => Decoded v
    | None => RaisesJSONDecodeError
    end.

(** Modelled from the spec: [get_exception_from_status_code] and the
    exception classes of [roblox/utilities/exceptions.py] are not among the
    sources.  The spec gives the collaborator as a lookup from the status
    code to a constructor that accepts [(response, errors)] and yields a
    Domain Error carrying the status code, the decoded error entries (or
    none) and the originating response. *)
Record DomainError : Type := mkDomainError {
  status : Z;
  errors : Value;
  response : Response
}.

(** Modelled from the spec: the lookup [get_exception_from_status_code]
    of [roblox/utilities/exceptions.py], applied as the call site does, to
    [response] and [errors]. *)
Definition get_exception_from_status_code (code : Z)
  : Response -> Value -> DomainError :=
  fun response errors =>
    {| status := code; errors := errors; response := response |}.

(** What a call of [request] can end in.  [RequestException] stands for
    the exception that [session.request] raised, of whatever class it is,
    handed on as it is; [DecodeException] for an exception of
    [Response.json()] that is not a [json.JSONDecodeError]; the other
    three are raised by the lines of [request] themselves. *)
Inductive Exception : Type :=
| RequestException (what : string)   (* raised by the session's send *)
| KeyError (key : string)
| AttributeError (what : string)
| HTTPException (e : DomainError)
| DecodeException (what : string).

Inductive result (A : Type) : Type :=
| Return (a : A)
| Raise (e : Exception).
Arguments Return {A} a.
Arguments Raise {A} e.

(** ** The transport session *)

(** One call of [session.request(method, *args, **kwargs)], with the
    session's default headers at that moment. *)
Record Sent : Type := mkSent {
  sent_method : string;
  sent_args : list Value;
  sent_kwargs : gmap string Value;
  sent_headers : CaseInsensitiveDict
}.

(** What a send comes back with: a response, or an exception raised by
    [session.request] (a failure of the transport, or whatever else the
    session raises on the arguments it is handed), named by [what]. *)
Inductive Reply : Type :=
| Replied (r : Response)
| Failed (what : string).

(** [requests.Session], or an object compatible with it.  [wire] lists the
    calls made so far, oldest first; [respond] is the behaviour of the
    session and of the servers behind it (cookie jar included): the reply
    to the latest call, given every call so far. *)
Record Session : Type := mkSession {
  headers : CaseInsensitiveDict;
  wire : list Sent;
  respond : list Sent -> Reply
}.

Definition Session_request (method : string) (args : list Value)
    (kwargs : gmap string Value) (s : Session) : Reply * Session :=
  let call := mkSent method args kwargs (headers s) in
  let wire' := wire s ++ [call] in
  (respond s wire', mkSession (headers s) wire' (respond s)).

Definition Session_set_header (key value : string) (s : Session) : Session :=
  mkSession (CID.setitem key value (headers s)) (wire s) (respond s).

(** [class CleanAsyncClient]: owns one session and forwards to it. *)
Record CleanAsyncClient : Type := mkClient {
  session : Session
}.

Module Client.
Definition request (method : string) (args : list Value)
    (kwargs : gmap string Value) (c : CleanAsyncClient)
  : Reply * CleanAsyncClient :=
  let '(r, s) := Session_request method args kwargs (session c) in
  (r, mkClient s).

Definition headers (c : CleanAsyncClient) : CaseInsensitiveDict :=
  headers (session c).

Definition set_header (key value : string) (c : CleanAsyncClient)
  : CleanAsyncClient :=
  mkClient (Session_set_header key value (session c)).

Definition wire (c : CleanAsyncClient) : list Sent := wire (session c).
End Client.

(** [class Requests] *)
Record Requests : Type := mkRequests {
  client : CleanAsyncClient;          (* [self.session] *)
  xcsrf_token_name : string
}.

(** [Requests.__init__] with a given session object. *)
Definition Requests_init (session : CleanAsyncClient) (xcsrf_token_name : string)
  : Requests :=
  let session := Client.set_header "User-Agent" "Roblox/WinInet" session in
  let session := Client.set_header "Referer" "www.roblox.com" session in
  mkRequests session xcsrf_token_name.

Definition _xcsrf_allowed_methods : gmap string bool :=
  {[ "post" := true; "put" := true; "patch" := true; "delete" := true ]}.

(** [_xcsrf_allowed_methods.get(method)], as a truth value. *)
Definition xcsrf_allowed (method : string) : bool :=
  match _xcsrf_allowed_methods !! method with
  | Some b => b
  | None => false
  end.

(** ** The monad of a method body: state [Requests], results or raises *)

Definition M (A : Type) : Type := Requests -> result A * Requests.

Definition ret {A} (a : A) : M A := fun self => (Return a, self).
Definition raise {A} (e : Exception) : M A := fun self => (Raise e, self).
Definition bind {A B} (m : M A) (k : A -> M B) : M B :=
  fun self =>
    match m self with
    | (Return a, self') => k a self'
    | (Raise e, self') => (Raise e, self')
    end.

Notation "x <- c ;; k" := (bind c (fun x => k))
  (at level 100, c at next level, right associativity).
Notation "c ;;; k" := (bind c (fun _ => k))
  (at level 100, right associativity).

(** [await asyncio.to_thread(self.session.request, method, *args, **kwargs)] *)
Definition send (method : string) (args : list Value)
    (kwargs : gmap string Value) : M Response :=
  fun self =>
    let '(reply, c) := Client.request method args kwargs (client self) in
    let self' := mkRequests c (xcsrf_token_name self) in
    match reply with
    | Replied r => (Return r, self')
    | Failed what => (Raise (RequestException what), self')
    end.

(** [response.headers[name]] *)
Definition getitem (name : string) (r : Response) : M string :=
  match CID.get name (resp_headers r) with
  | Some v => ret v
  | None => raise (KeyError name)
  end.

(** [self.session.headers[name] = value] *)
Definition set_session_header (name value : string) : M unit :=
  fun self =>
    (Return tt,
     mkRequests (Client.set_header name value (client self))
                (xcsrf_token_name self)).

Definition get_token_name : M string :=
  fun self => (Return (xcsrf_token_name self), self).

(** Lines 115-118: token capture and the resend after a 403. *)
Definition xcsrf_step (handle_xcsrf_token : Value) (method : string)
    (args : list Value) (kwargs : gmap string Value) (response : Response)
  : M Response :=
  name <- get_token_name ;;
  if (truthy handle_xcsrf_token
      && CID.contains name (resp_headers response)
      && xcsrf_allowed method)%bool
  then
    token <- getitem name response ;;
    set_session_header name token ;;;
    if status_code response =? 403
    then send method args kwargs
    else ret response
  else ret response.

(** Lines 129-133: [data] after the [try]; only [JSONDecodeError] is
    caught. *)
Definition try_json (response : Response) : result Value :=
  match json_call response with
  | Decoded v => Return v
  | RaisesJSONDecodeError => Return VNone   (* except JSONDecodeError: pass *)
  | RaisesOther what => Raise (DecodeException what)
  end.

(** Lines 126-134: the [errors] handed to the exception. *)
Definition parse_errors (response : Response) : result Value :=
  let content_type := CID.get "Content-Type" (resp_headers response) in
  match content_type with
  | Some ct =>
      if (negb (String.eqb ct "") && startswith ct "application/json")%bool
      then
        match try_json response with
        | Return data =>
            (* errors = data and data.get("errors") *)
            if truthy data
            then match data with
                 | VDict items => Return (items_get items "errors")
                 | _ => Raise (AttributeError "get")
                 end
            else Return data
        | Raise e => Raise e
        end
      else Return VNone
  | None => Return VNone
  end.

(** Lines 120-142: the stream exit and the translation of the status. *)
Definition conclude (stream : Value) (response : Response) : M Response :=
  if truthy stream
  then ret response
  else
    if status_code response >=? 400
    then
      match parse_errors response with
      | Return errors =>
          raise (HTTPException
                   (get_exception_from_status_code (status_code response)
                      response errors))
      | Raise e => raise e
      end
    else ret response.

(** [Requests.request(method, *args, **kwargs)] *)
Definition request (method : string) (args : list Value)
    (kwargs : gmap string Value) : M Response :=
  let '(handle_xcsrf_token, kwargs) := pop "handle_xcsrf_token" (VBool true) kwargs in
  let '(skip_roblox, kwargs) := pop "skip_roblox" (VBool false) kwargs in
  let method := lower method in
  let stream := get_default "stream" (VBool false) kwargs in
  response <- send method args kwargs ;;
  if truthy skip_roblox
  then ret response
  else
    response <- xcsrf_step handle_xcsrf_token method args kwargs response ;;
    conclude stream response.

(** [Requests.get], [post], [put], [patch], [delete] *)
Module Verb.
Definition get := request "GET".
Definition delete := request "DELETE".
End Verb.

(** ** Sessions and responses used in the examples *)

(** A session that answers its [n]-th call with the [n]-th reply of a
    script, and with [otherwise] once the script is exhausted. *)
Definition scripted (script : list Reply) (otherwise : Reply)
  : list Sent -> Reply :=
  fun calls => nth (length calls - 1)%nat script otherwise.

(** [Requests(session=...)] on a new session with that behaviour. *)
Definition fresh (behaviour : list Sent -> Reply) : Requests :=
  Requests_init (mkClient (mkSession ∅ [] behaviour)) "X-CSRF-Token".

Definition with_token (token : string) : CaseInsensitiveDict :=
  CID.of_list [("x-csrf-token", token)].

Definition json_headers : CaseInsensitiveDict :=
  CID.of_list [("Content-Type", "application/json; charset=utf-8")].

Definition forbidden (hdrs : CaseInsensitiveDict) : Response :=
  mkResponse 403 hdrs "" None.

Definition ok_response : Response :=
  mkResponse 200 ∅ "ok" None.

Definition endpoint : list Value := [VStr "https://auth.roblox.com/v2/logout"].

(** Keyword bags: [skip_roblox=True], [stream=True]. *)
Definition kw_skip : gmap string Value := {[ "skip_roblox" := VBool true ]}.
Definition kw_stream : gmap string Value := {[ "stream" := VBool true ]}.

(** A 403 that carries a token, then a 200. *)
Definition rejects_then_accepts : Requests :=
  fresh (scripted [Replied (forbidden (with_token "T1")); Replied ok_response]
           (Failed "closed")).

(** A 403 that carries a token, then a 403 that carries another one. *)
Definition rejects_twice : Requests :=
  fresh (scripted [Replied (forbidden (with_token "T1"));
                   Replied (forbidden (with_token "T2"))]
           (Replied ok_response)).

(** A 403 without the token header, whatever is sent. *)
Definition rejects_without_token : Requests :=
  fresh (scripted [] (Replied (forbidden ∅))).

(** A 200 that carries a token. *)
Definition accepts_with_token : Requests :=
  fresh (scripted [Replied (mkResponse 200 (with_token "T1") "ok" None)]
           (Failed "closed")).

(** A word between double quotes, for the JSON texts below. *)
Definition quoted (s : string) : string :=
  String "034"%char (s +:+ String "034"%char EmptyString).

(** A 500 whose body is announced as JSON and is not. *)
Definition malformed_500 : Response :=
  mkResponse 500 json_headers "<html>Internal Server Error</html>" None.

Definition answers_malformed_500 : Requests :=
  fresh (scripted [] (Replied malformed_500)).

(** A 500 that carries a token. *)
Definition answers_500_with_token : Requests :=
  fresh (scripted [] (Replied (mkResponse 500 (with_token "T1") "" None))).

(** A 500 whose JSON body is an array, not an object:
    [[{"code":0,"message":"x"}]]. *)
Definition array_500 : Response :=
  mkResponse 500 json_headers
    ("[{" +:+ quoted "code" +:+ ":0," +:+ quoted "message" +:+ ":"
     +:+ quoted "x" +:+ "}]")
    (Some (VList [VDict [("code", VInt 0); ("message", VStr "x")]])).

Definition answers_array_500 : Requests :=
  fresh (scripted [] (Replied array_500)).

(** The 500 of the spec's example: [{"errors":[{"code":1,"message":"x"}]}]. *)
Definition errors_500 : Response :=
  mkResponse 500 json_headers
    ("{" +:+ quoted "errors" +:+ ":[{" +:+ quoted "code" +:+ ":1,"
     +:+ quoted "message" +:+ ":" +:+ quoted "x" +:+ "}]}")
    (Some (VDict [("errors",
                   VList [VDict [("code", VInt 1); ("message", VStr "x")]])])).


(** ** Observations on a call

    What the caller gets, what the object is left as, and what was sent. *)

Definition outcome {A} (m : M A) (self : Requests) : result A :=
  fst (m self).
Definition after {A} (m : M A) (self : Requests) : Requests :=
  snd (m self).

(** [self.session.headers] *)
Definition session_headers (self : Requests) : CaseInsensitiveDict :=
  Client.headers (client self).
(** Every call the session has made, oldest first. *)
Definition calls (self : Requests) : list Sent :=
  Client.wire (client self).
Definition behaviour (self : Requests) : list Sent -> Reply :=
  respond (session (client self)).

(** The options of a call, read off the keyword bag as [request] does. *)
Definition handle_xcsrf_token_of (kwargs : gmap string Value) : Value :=
  get_default "handle_xcsrf_token" (VBool true) kwargs.
Definition skip_roblox_of (kwargs : gmap string Value) : Value :=
  get_default "skip_roblox" (VBool false) kwargs.
Definition stream_of (kwargs : gmap string Value) : Value :=
  get_default "stream" (VBool false) kwargs.
(** The keywords that reach the session: the two popped ones removed. *)
Definition forwarded (kwargs : gmap string Value) : gmap string Value :=
  base.delete "skip_roblox" (base.delete "handle_xcsrf_token" kwargs).

(** The first call that [request] makes, and the reply to it. *)
Definition first_call (method : string) (args : list Value)
    (kwargs : gmap string Value) (self : Requests) : Sent :=
  mkSent (lower method) args (forwarded kwargs) (session_headers self).
Definition first_reply (method : string) (args : list Value)
    (kwargs : gmap string Value) (self : Requests) : Reply :=
  behaviour self (calls self ++ [first_call method args kwargs self]).

(** The call made again once [token] is stored, and the reply to it. *)
Definition second_call (method : string) (args : list Value)
    (kwargs : gmap string Value) (token : string) (self : Requests) : Sent :=
  mkSent (lower method) args (forwarded kwargs)
    (CID.setitem (xcsrf_token_name self) token (session_headers self)).
Definition second_reply (method : string) (args : list Value)
    (kwargs : gmap string Value) (token : string) (self : Requests) : Reply :=
  behaviour self (calls self ++ [first_call method args kwargs self;
                                 second_call method args kwargs token self]).

(** The reply to the latest call of the session. *)
Definition last_reply (self : Requests) : Reply :=
  behaviour self (calls self).

Definition as_result (reply : Reply) : result Response :=
  match reply with
  | Replied r => Return r
  | Failed what => Raise (RequestException what)
  end.

(** The object after one more call, and after a header is stored. *)
Definition log_call (c : Sent) (self : Requests) : Requests :=
  mkRequests
    (mkClient (mkSession (session_headers self) (calls self ++ [c])
                 (behaviour self)))
    (xcsrf_token_name self).
Definition store_header (name value : string) (self : Requests) : Requests :=
  mkRequests
    (mkClient (mkSession (CID.setitem name value (session_headers self))
                 (calls self) (behaviour self)))
    (xcsrf_token_name self).


Definition is_http_exception (res : result Response) : bool :=
  match res with
  | Raise (HTTPException _) => true
  | _ => false
  end.

(** ** More sessions, responses and keyword bags for the examples *)

(** A session that gives the same response to every call. *)
Definition answers (r : Response) : Requests :=
  fresh (scripted [] (Replied r)).

(** A session whose every send fails. *)
Definition fails_at_once : Requests :=
  fresh (scripted [] (Failed "timed out")).

(** [handle_xcsrf_token=False] *)
Definition kw_no_handle : gmap string Value :=
  {[ "handle_xcsrf_token" := VBool false ]}.

(** The three options spelled out, and one keyword for the session. *)
Definition kw_all : gmap string Value :=
  {[ "handle_xcsrf_token" := VBool true; "skip_roblox" := VBool false;
     "stream" := VBool false; "timeout" := VInt 5 ]}.

(** A 500 whose JSON body is the empty object. *)
Definition empty_object_500 : Response :=
  mkResponse 500 json_headers "{}" (Some (VDict [])).

(** A 500 whose JSON body is an object without an [errors] entry. *)
Definition no_errors_key_500 : Response :=
  mkResponse 500 json_headers
    ("{" +:+ quoted "message" +:+ ":" +:+ quoted "x" +:+ "}")
    (Some (VDict [("message", VStr "x")])).

(** The body of [errors_500] under a Content-Type that is not JSON. *)
Definition html_labelled_500 : Response :=
  mkResponse 500 (CID.of_list [("Content-Type", "text/html")])
    (content errors_500) (json errors_500).

(** A session that has stored the token [T1] and is given it again on
    every call. *)
Definition holds_token : Requests :=
  after (request "POST" endpoint ∅)
    (answers (mkResponse 200 (with_token "T1") "ok" None)).

(** A 500 whose JSON body is nested deeper than the decoder can follow:
    [Response.json()] raises [RecursionError]. *)
Definition nested_500 : Response :=
  mkResponseWith 500 json_headers
    (String.concat "" (repeat "[" 3000) +:+ String.concat "" (repeat "]" 3000))
    (RaisesOther "RecursionError").

(** A 403 that carries a token, whose JSON body is a string. *)
Definition forbidden_with_message : Response :=
  mkResponse 403 (CID.of_list [("x-csrf-token", "T1");
                               ("Content-Type", "application/json")])
    (quoted "Token Validation Failed")
    (Some (VStr "Token Validation Failed")).

(** * Properties *)

(** ** Strings and headers *)



Lemma contains_get (name : string) (d : CaseInsensitiveDict) :
  CID.contains name d = true <-> exists v, CID.get name d = Some v.
Proof.
  unfold CID.contains, CID.get.
  destruct (d !! lower name) as [[k v]|]; simpl; split.
  - intros _. now exists v.
  - reflexivity.
  - discriminate.
  - intros [v H]. discriminate.
Qed.

Lemma get_setitem (name value : string) (d : CaseInsensitiveDict) :
  CID.get name (CID.setitem name value d) = Some value.
Proof. unfold CID.get, CID.setitem. now rewrite lookup_insert_eq. Qed.

(** ** The keyword bag *)

Lemma pop_handle (kwargs : gmap string Value) :
  pop "handle_xcsrf_token" (VBool true) kwargs
  = (handle_xcsrf_token_of kwargs, base.delete "handle_xcsrf_token" kwargs).
Proof. reflexivity. Qed.

Lemma pop_skip (kwargs : gmap string Value) :
  pop "skip_roblox" (VBool false) (base.delete "handle_xcsrf_token" kwargs)
  = (skip_roblox_of kwargs, forwarded kwargs).
Proof.
  unfold pop, skip_roblox_of, get_default, forwarded.
  now rewrite lookup_delete_ne by discriminate.
Qed.

Lemma stream_forwarded (kwargs : gmap string Value) :
  get_default "stream" (VBool false) (forwarded kwargs) = stream_of kwargs.
Proof.
  unfold stream_of, get_default, forwarded.
  now rewrite !lookup_delete_ne by discriminate.
Qed.

(** [stream] stays in the bag handed to the session; the other two do not. *)
Lemma forwarded_lookup (kwargs : gmap string Value) :
  forwarded kwargs !! "stream" = kwargs !! "stream"
  /\ forwarded kwargs !! "skip_roblox" = None
  /\ forwarded kwargs !! "handle_xcsrf_token" = None.
Proof.
  unfold forwarded. repeat split.
  - now rewrite !lookup_delete_ne by discriminate.
  - now rewrite lookup_delete_eq.
  - rewrite lookup_delete_ne by discriminate. now rewrite lookup_delete_eq.
Qed.

(** ** One step at a time *)

Lemma send_run (method : string) (args : list Value)
    (kwargs : gmap string Value) (self : Requests) :
  let c := mkSent method args kwargs (session_headers self) in
  send method args kwargs self
  = (as_result (behaviour self (calls self ++ [c])), log_call c self).
Proof.
  destruct self as [[[h w b]] name]. unfold send. cbn.
  now destruct (b _).
Qed.

Lemma set_session_header_run (name value : string) (self : Requests) :
  set_session_header name value self = (Return tt, store_header name value self).
Proof. reflexivity. Qed.

Lemma conclude_state (stream : Value) (r : Response) (self : Requests) :
  after (conclude stream r) self = self.
Proof.
  unfold after, conclude.
  destruct (truthy stream); [reflexivity|].
  destruct (status_code r >=? 400); [|reflexivity].
  now destruct (parse_errors r).
Qed.

Lemma conclude_outcome (stream : Value) (r : Response) (self self' : Requests) :
  outcome (conclude stream r) self = outcome (conclude stream r) self'.
Proof.
  unfold outcome, conclude.
  destruct (truthy stream); [reflexivity|].
  destruct (status_code r >=? 400); [|reflexivity].
  now destruct (parse_errors r).
Qed.

Lemma conclude_stream (stream : Value) (r : Response) (self : Requests) :
  truthy stream = true -> conclude stream r self = (Return r, self).
Proof. intros H. unfold conclude. now rewrite H. Qed.

Lemma conclude_run (stream : Value) (r : Response) (self : Requests) :
  conclude stream r self = (outcome (conclude stream r) self, self).
Proof.
  rewrite <- (conclude_state stream r self) at 3.
  unfold outcome, after. now destruct (conclude stream r self).
Qed.

(** The body of [request], path by path. *)
Lemma request_run (method : string) (args : list Value)
    (kwargs : gmap string Value) (self : Requests) :
  let name := xcsrf_token_name self in
  let c1 := first_call method args kwargs self in
  let s1 := log_call c1 self in
  request method args kwargs self =
  match first_reply method args kwargs self with
  | Failed what => (Raise (RequestException what), s1)
  | Replied r1 =>
      if truthy (skip_roblox_of kwargs) then (Return r1, s1)
      else if (truthy (handle_xcsrf_token_of kwargs)
               && xcsrf_allowed (lower method))%bool
      then match CID.get name (resp_headers r1) with
           | Some token =>
               let s1' := store_header name token s1 in
               if status_code r1 =? 403
               then
                 let c2 := second_call method args kwargs token self in
                 let s2 := log_call c2 s1' in
                 match second_reply method args kwargs token self with
                 | Failed what => (Raise (RequestException what), s2)
                 | Replied r2 => conclude (stream_of kwargs) r2 s2
                 end
               else conclude (stream_of kwargs) r1 s1'
           | None => conclude (stream_of kwargs) r1 s1
           end
      else conclude (stream_of kwargs) r1 s1
  end.
Proof.
  intros name c1 s1.
  unfold request. rewrite pop_handle, pop_skip, stream_forwarded.
  unfold bind at 1. rewrite send_run.
  fold (first_call method args kwargs self). fold c1. fold s1.
  unfold first_reply. fold c1.
  destruct (behaviour self _) as [r1|what]; cbn [as_result]; [|reflexivity].
  destruct (truthy (skip_roblox_of kwargs)); [reflexivity|].
  unfold bind at 1, xcsrf_step.
  unfold bind at 1, get_token_name.
  change (xcsrf_token_name s1) with name.
  destruct (truthy (handle_xcsrf_token_of kwargs)); cbn [andb];
    [|reflexivity].
  destruct (CID.contains name (resp_headers r1)) eqn:Hin; cbn [andb].
  - apply contains_get in Hin as [token Htok]. rewrite Htok.
    destruct (xcsrf_allowed (lower method)); [|reflexivity].
    unfold bind, getitem. rewrite Htok. unfold ret.
    rewrite set_session_header_run.
    destruct (status_code r1 =? 403); [|reflexivity].
    rewrite send_run.
    change (behaviour _ _)
      with (behaviour self ((calls self ++ [c1])
                            ++ [second_call method args kwargs token self])).
    rewrite <- app_assoc.
    change (behaviour _ _) with (second_reply method args kwargs token self).
    now destruct (second_reply method args kwargs token self).
  - destruct (CID.get name (resp_headers r1)) as [token|] eqn:Htok.
    + assert (CID.contains name (resp_headers r1) = true) as Hc
        by (apply contains_get; eauto).
      congruence.
    + now destruct (xcsrf_allowed (lower method)).
Qed.

(** ** What a call leaves behind *)

Section Call.
Variables (method : string) (args : list Value).
Variables (kwargs : gmap string Value) (self : Requests).

Local Abbreviation run := (request method args kwargs).
Local Abbreviation c1 := (first_call method args kwargs self).
Local Abbreviation c2 := (second_call method args kwargs).
Local Abbreviation name := (xcsrf_token_name self).

(** Neither the behaviour of the session nor the name of the token
    header changes. *)
Lemma request_keeps_session :
  behaviour (after run self) = behaviour self
  /\ xcsrf_token_name (after run self) = name.
Proof.
  unfold after. rewrite request_run.
  destruct (first_reply _ _ _ _) as [r1|w]; [|now split].
  destruct (truthy (skip_roblox_of kwargs)); [now split|].
  destruct (_ && _)%bool; [|now rewrite conclude_run].
  destruct (CID.get _ _) as [token|]; [|now rewrite conclude_run].
  destruct (status_code r1 =? 403); [|now rewrite conclude_run].
  destruct (second_reply _ _ _ _ _); [now rewrite conclude_run|now split].
Qed.

(** A call sends once or twice, and stores at most the token of the
    first response. *)
Lemma request_footprint :
  (calls (after run self) = calls self ++ [c1]
   /\ (session_headers (after run self) = session_headers self
       \/ exists r1 token,
            first_reply method args kwargs self = Replied r1
            /\ CID.get name (resp_headers r1) = Some token
            /\ status_code r1 <> 403
            /\ session_headers (after run self)
               = CID.setitem name token (session_headers self)))
  \/ exists r1 token,
       first_reply method args kwargs self = Replied r1
       /\ CID.get name (resp_headers r1) = Some token
       /\ status_code r1 = 403
       /\ calls (after run self) = calls self ++ [c1; c2 token self]
       /\ session_headers (after run self)
          = CID.setitem name token (session_headers self).
Proof.
  unfold after. rewrite request_run.
  destruct (first_reply _ _ _ _) as [r1|w] eqn:Hfirst; [|left; now split; [|left]].
  destruct (truthy (skip_roblox_of kwargs)); [left; now split; [|left]|].
  destruct (_ && _)%bool;
    [|rewrite conclude_run; left; now split; [|left]].
  destruct (CID.get _ _) as [token|] eqn:Htok;
    [|rewrite conclude_run; left; now split; [|left]].
  destruct (status_code r1 =? 403) eqn:H403.
  - apply Z.eqb_eq in H403. right. exists r1, token.
    assert (calls (log_call (c2 token self)
                     (store_header name token (log_call c1 self)))
            = calls self ++ [c1; c2 token self]) as Hcalls.
    { cbn. now rewrite <- app_assoc. }
    destruct (second_reply _ _ _ _ _); rewrite ?conclude_run; cbn [snd];
      repeat split; auto.
  - apply Z.eqb_neq in H403. rewrite conclude_run. left. split; [reflexivity|].
    right. exists r1, token. now repeat split.
Qed.

(** Unless [skip_roblox] is set, the outcome is the conclusion drawn from
    the reply to the last call made. *)
Lemma request_concludes :
  truthy (skip_roblox_of kwargs) = false ->
  outcome run self
  = match last_reply (after run self) with
    | Replied r => outcome (conclude (stream_of kwargs) r) self
    | Failed what => Raise (RequestException what)
    end.
Proof.
  intros Hskip. unfold outcome, after. rewrite request_run, Hskip.
  destruct (first_reply _ _ _ _) as [r1|w] eqn:Hfirst.
  2:{ cbn [fst snd]. change (last_reply _) with (first_reply method args kwargs self).
      now rewrite Hfirst. }
  destruct (_ && _)%bool.
  2:{ rewrite conclude_run. cbn [fst snd].
      change (last_reply _) with (first_reply method args kwargs self).
      rewrite Hfirst. apply conclude_outcome. }
  destruct (CID.get _ _) as [token|] eqn:Htok.
  2:{ rewrite conclude_run. cbn [fst snd].
      change (last_reply _) with (first_reply method args kwargs self).
      rewrite Hfirst. apply conclude_outcome. }
  destruct (status_code r1 =? 403).
  2:{ rewrite conclude_run. cbn [fst snd].
      change (last_reply _) with (first_reply method args kwargs self).
      rewrite Hfirst. apply conclude_outcome. }
  assert (last_reply (log_call (c2 token self)
                        (store_header name token (log_call c1 self)))
          = second_reply method args kwargs token self) as Hlast.
  { unfold last_reply, second_reply. cbn. now rewrite <- app_assoc. }
  destruct (second_reply _ _ _ _ _) as [r2|w] eqn:Hsecond.
  - rewrite conclude_run. cbn [fst snd]. rewrite Hlast.
    apply conclude_outcome.
  - cbn [fst snd]. now rewrite Hlast.
Qed.
End Call.

Lemma request_skip_run (method : string) (args : list Value)
    (kwargs : gmap string Value) (self : Requests) :
  truthy (skip_roblox_of kwargs) = true ->
  request method args kwargs self
  = (as_result (first_reply method args kwargs self),
     log_call (first_call method args kwargs self) self).
Proof.
  intros Hskip. rewrite request_run, Hskip.
  now destruct (first_reply _ _ _ _).
Qed.

Lemma as_result_not_http (reply : Reply) :
  is_http_exception (as_result reply) = false.
Proof. now destruct reply. Qed.

Lemma xcsrf_allowed_get : xcsrf_allowed "get" = false.
Proof. vm_compute. reflexivity. Qed.

(** ** The GET exemption *)

(** C3.  A call whose method is GET (in any letter case) never modifies
    the default headers of the session and sends exactly once, whatever
    the response is: a 403, a response that carries the token header, or
    both.  No token is captured and nothing is sent again. *)
Theorem get_is_exempt (method : string) (args : list Value)
    (kwargs : gmap string Value) (self : Requests) :
  lower method = "get" ->
  session_headers (after (request method args kwargs) self)
  = session_headers self
  /\ calls (after (request method args kwargs) self)
     = calls self ++ [first_call method args kwargs self].
Proof.
  intros Hget. unfold after. rewrite request_run.
  rewrite Hget, xcsrf_allowed_get, andb_false_r.
  destruct (first_reply _ _ _ _); [|now split].
  destruct (truthy (skip_roblox_of kwargs)); [now split|].
  now rewrite conclude_run.
Qed.

Lemma get_is_exempt_witness :
  lower "GET" = "get"
  /\ first_reply "GET" endpoint ∅ rejects_then_accepts
     = Replied (forbidden (with_token "T1"))
  /\ session_headers (after (request "GET" endpoint ∅) rejects_then_accepts)
     = session_headers rejects_then_accepts
  /\ calls (after (request "GET" endpoint ∅) rejects_then_accepts)
     = calls rejects_then_accepts
       ++ [first_call "GET" endpoint ∅ rejects_then_accepts].
Proof.
  split; [reflexivity|]. split; [reflexivity|].
  apply (get_is_exempt "GET" endpoint ∅ rejects_then_accepts). reflexivity.
Defined.

(** ** The [skip_roblox] exit *)

(** C4.  With [skip_roblox] set, the call returns what the first send
    came back with, for every status code: a response is returned as it
    is, no [HTTPException] is raised, the default headers of the session
    are left alone (no token capture) and exactly one call is sent (no
    resend). *)
Theorem skip_roblox_returns_raw (method : string) (args : list Value)
    (kwargs : gmap string Value) (self : Requests) :
  truthy (skip_roblox_of kwargs) = true ->
  (forall r, first_reply method args kwargs self = Replied r ->
             outcome (request method args kwargs) self = Return r)
  /\ is_http_exception (outcome (request method args kwargs) self) = false
  /\ session_headers (after (request method args kwargs) self)
     = session_headers self
  /\ calls (after (request method args kwargs) self)
     = calls self ++ [first_call method args kwargs self].
Proof.
  intros Hskip. unfold outcome, after.
  rewrite (request_skip_run _ _ _ _ Hskip). cbn [fst snd].
  repeat split.
  - now intros r ->.
  - apply as_result_not_http.
Qed.

Lemma skip_roblox_returns_raw_witness :
  truthy (skip_roblox_of kw_skip) = true
  /\ outcome (request "POST" endpoint kw_skip) rejects_then_accepts
     = Return (forbidden (with_token "T1")).
Proof.
  assert (truthy (skip_roblox_of kw_skip) = true) as Hskip by reflexivity.
  split; [exact Hskip|].
  apply (skip_roblox_returns_raw "POST" endpoint kw_skip rejects_then_accepts
           Hskip).
  reflexivity.
Defined.

(** ** The [stream] exit *)

(** C6.  With [stream] set, the call hands back the reply to the last
    call sent, whatever its status code: a response, even one with a
    status of 400 or more, is returned and never turned into a raised
    [HTTPException]. *)
Theorem stream_returns_without_translation (method : string)
    (args : list Value) (kwargs : gmap string Value) (self : Requests) :
  truthy (stream_of kwargs) = true ->
  outcome (request method args kwargs) self
  = as_result (last_reply (after (request method args kwargs) self))
  /\ is_http_exception (outcome (request method args kwargs) self) = false.
Proof.
  intros Hstream.
  assert (outcome (request method args kwargs) self
          = as_result (last_reply (after (request method args kwargs) self)))
    as Hout.
  { destruct (truthy (skip_roblox_of kwargs)) eqn:Hskip.
    - unfold outcome, after. now rewrite (request_skip_run _ _ _ _ Hskip).
    - rewrite (request_concludes _ _ _ _ Hskip).
      destruct (last_reply _); [|reflexivity].
      unfold outcome, conclude. now rewrite Hstream. }
  split; [exact Hout|].
  rewrite Hout. apply as_result_not_http.
Qed.

Lemma stream_returns_without_translation_witness :
  truthy (stream_of kw_stream) = true
  /\ outcome (request "POST" endpoint kw_stream) rejects_twice
     = Return (forbidden (with_token "T2")).
Proof.
  assert (truthy (stream_of kw_stream) = true) as Hstream by reflexivity.
  split; [exact Hstream|].
  destruct (stream_returns_without_translation "POST" endpoint kw_stream
              rejects_twice Hstream) as [Hout _].
  rewrite Hout. vm_compute. reflexivity.
Defined.

(** ** Translation of the status *)

Lemma try_json_decoded (r : Response) (v : Value) :
  json r = Some v -> try_json r = Return v.
Proof.
  unfold json, try_json. destruct (json_call r); congruence.
Qed.

Lemma conclude_malformed (stream : Value) (r : Response) (self : Requests) :
  truthy stream = false ->
  400 <= status_code r ->
  json_call r = RaisesJSONDecodeError ->
  outcome (conclude stream r) self
  = Raise (HTTPException
             {| status := status_code r; errors := VNone; response := r |}).
Proof.
  intros Hstream Hstatus Hjson. unfold outcome, conclude.
  rewrite Hstream.
  destruct (status_code r >=? 400) eqn:Hge; [|lia].
  unfold parse_errors, try_json. rewrite Hjson.
  destruct (CID.get _ _) as [ct|]; [|reflexivity].
  now destruct (_ && _)%bool.
Qed.

(** C8, as the code has it.  On a call that neither streams nor skips,
    when the reply to the last call sent has a status of 400 or more, a
    Content-Type that starts with application/json and a body on which
    [Response.json()] raises [json.JSONDecodeError], the decode failure is
    swallowed: the call raises the [HTTPException] of that status, with no
    errors and with that response. *)
Theorem malformed_json_body_still_raises (method : string)
    (args : list Value) (kwargs : gmap string Value) (self : Requests)
    (r : Response) (content_type : string) :
  truthy (skip_roblox_of kwargs) = false ->
  truthy (stream_of kwargs) = false ->
  last_reply (after (request method args kwargs) self) = Replied r ->
  400 <= status_code r ->
  CID.get "Content-Type" (resp_headers r) = Some content_type ->
  startswith content_type "application/json" = true ->
  json_call r = RaisesJSONDecodeError ->
  outcome (request method args kwargs) self
  = Raise (HTTPException
             {| status := status_code r; errors := VNone; response := r |}).
Proof.
  intros Hskip Hstream Hlast Hstatus _ _ Hjson.
  rewrite (request_concludes _ _ _ _ Hskip), Hlast.
  now apply conclude_malformed.
Qed.

Lemma malformed_json_body_still_raises_witness :
  truthy (skip_roblox_of ∅) = false
  /\ truthy (stream_of ∅) = false
  /\ last_reply (after (request "GET" endpoint ∅) answers_malformed_500)
     = Replied malformed_500
  /\ 400 <= status_code malformed_500
  /\ CID.get "Content-Type" (resp_headers malformed_500)
     = Some "application/json; charset=utf-8"
  /\ startswith "application/json; charset=utf-8" "application/json" = true
  /\ json_call malformed_500 = RaisesJSONDecodeError
  /\ outcome (request "GET" endpoint ∅) answers_malformed_500
     = Raise (HTTPException
                {| status := 500; errors := VNone;
                   response := malformed_500 |}).
Proof.
  assert (400 <= status_code malformed_500) as Hstatus
    by (vm_compute; discriminate).
  repeat (split; [first [reflexivity | exact Hstatus]|]).
  apply (malformed_json_body_still_raises "GET" endpoint ∅
           answers_malformed_500 malformed_500
           "application/json; charset=utf-8");
    first [reflexivity | exact Hstatus].
Defined.

(** The claim C8 as it is written fails on a body that fails to decode
    with an exception of another class than the one line 132 names: a body
    nested too deep makes [Response.json()] raise [RecursionError], which
    leaves the call in place of the [HTTPException]. *)
Lemma other_decode_exception_escapes :
  truthy (skip_roblox_of ∅) = false
  /\ truthy (stream_of ∅) = false
  /\ last_reply (after (request "GET" endpoint ∅) (answers nested_500))
     = Replied nested_500
  /\ status_code nested_500 = 500
  /\ CID.get "Content-Type" (resp_headers nested_500)
     = Some "application/json; charset=utf-8"
  /\ json nested_500 = None
  /\ outcome (request "GET" endpoint ∅) (answers nested_500)
     = Raise (DecodeException "RecursionError")
  /\ is_http_exception
       (outcome (request "GET" endpoint ∅) (answers nested_500))
     = false.
Proof. repeat split; vm_compute; reflexivity. Qed.

(** ** Token capture and the resend *)

(** C10.  When a call sends twice, the first reply was a 403 carrying the
    token header, and the token found in the session afterwards is the one
    of that first response, stored before the second call was sent: the
    reply to the second call, whatever it carries, changes neither the
    headers of the session nor the number of calls. *)
Theorem resend_keeps_first_token (method : string) (args : list Value)
    (kwargs : gmap string Value) (self : Requests) :
  length (calls (after (request method args kwargs) self))
  = (length (calls self) + 2)%nat ->
  exists r1 token,
    first_reply method args kwargs self = Replied r1
    /\ status_code r1 = 403
    /\ CID.get (xcsrf_token_name self) (resp_headers r1) = Some token
    /\ calls (after (request method args kwargs) self)
       = calls self ++ [first_call method args kwargs self;
                        second_call method args kwargs token self]
    /\ sent_headers (second_call method args kwargs token self)
       = session_headers (after (request method args kwargs) self)
    /\ session_headers (after (request method args kwargs) self)
       = CID.setitem (xcsrf_token_name self) token (session_headers self)
    /\ CID.get (xcsrf_token_name self)
         (session_headers (after (request method args kwargs) self))
       = Some token.
Proof.
  intros Hlen.
  destruct (request_footprint method args kwargs self)
    as [[Hcalls _]|(r1 & token & Hfirst & Htok & H403 & Hcalls & Hhdrs)].
  - rewrite Hcalls, length_app in Hlen. cbn in Hlen. lia.
  - exists r1, token. rewrite Hhdrs. repeat split; auto.
    apply get_setitem.
Qed.

Lemma resend_keeps_first_token_witness :
  length (calls (after (request "POST" endpoint ∅) rejects_twice))
  = (length (calls rejects_twice) + 2)%nat
  /\ second_reply "POST" endpoint ∅ "T1" rejects_twice
     = Replied (forbidden (with_token "T2"))
  /\ CID.get "X-CSRF-Token"
       (session_headers (after (request "POST" endpoint ∅) rejects_twice))
     = Some "T1".
Proof.
  assert (length (calls (after (request "POST" endpoint ∅) rejects_twice))
          = (length (calls rejects_twice) + 2)%nat) as Hlen
    by (vm_compute; reflexivity).
  split; [exact Hlen|]. split; [reflexivity|].
  destruct (resend_keeps_first_token "POST" endpoint ∅ rejects_twice Hlen)
    as (r1 & token & Hfirst & _ & Htok & _ & _ & _ & Hget).
  assert (Replied r1 = Replied (forbidden (with_token "T1"))) as Hr1
    by (rewrite <- Hfirst; reflexivity).
  injection Hr1 as ->.
  assert (Some token = Some "T1") as Htoken
    by (rewrite <- Htok; reflexivity).
  injection Htoken as ->.
  exact Hget.
Defined.

(** What the call concludes from the reply to the resend. *)
Lemma request_after_403 (method : string) (args : list Value)
    (kwargs : gmap string Value) (self : Requests)
    (r1 : Response) (token : string) :
  truthy (skip_roblox_of kwargs) = false ->
  truthy (handle_xcsrf_token_of kwargs) = true ->
  xcsrf_allowed (lower method) = true ->
  first_reply method args kwargs self = Replied r1 ->
  CID.get (xcsrf_token_name self) (resp_headers r1) = Some token ->
  request method args kwargs self
  = let s1 := store_header (xcsrf_token_name self) token
                (log_call (first_call method args kwargs self) self) in
    if status_code r1 =? 403
    then
      let s2 := log_call (second_call method args kwargs token self) s1 in
      match second_reply method args kwargs token self with
      | Replied r2 => conclude (stream_of kwargs) r2 s2
      | Failed what => (Raise (RequestException what), s2)
      end
    else conclude (stream_of kwargs) r1 s1.
Proof.
  intros Hskip Hhandle Hallowed Hfirst Htok.
  rewrite request_run, Hfirst, Hskip, Hhandle, Hallowed, Htok.
  reflexivity.
Qed.

Lemma calls_after_resend (method : string) (args : list Value)
    (kwargs : gmap string Value) (self : Requests) (token : string) :
  calls (log_call (second_call method args kwargs token self)
           (store_header (xcsrf_token_name self) token
              (log_call (first_call method args kwargs self) self)))
  = calls self ++ [first_call method args kwargs self;
                   second_call method args kwargs token self].
Proof. cbn. now rewrite <- app_assoc. Qed.

(** C1, as the code has it.  On a call with [handle_xcsrf_token] enabled
    and [skip_roblox] not set, a 403 on an unsafe method that carries the
    token header is followed by exactly one more call with the same
    method, arguments and keywords; the outcome of the call is what is
    concluded from the reply to that second call, and whatever that reply
    is, a second 403 included, nothing more is sent. *)
Theorem resend_once_after_403 (method : string) (args : list Value)
    (kwargs : gmap string Value) (self : Requests)
    (r1 : Response) (token : string) :
  truthy (skip_roblox_of kwargs) = false ->
  truthy (handle_xcsrf_token_of kwargs) = true ->
  xcsrf_allowed (lower method) = true ->
  first_reply method args kwargs self = Replied r1 ->
  status_code r1 = 403 ->
  CID.get (xcsrf_token_name self) (resp_headers r1) = Some token ->
  calls (after (request method args kwargs) self)
  = calls self ++ [first_call method args kwargs self;
                   second_call method args kwargs token self]
  /\ sent_method (second_call method args kwargs token self)
     = sent_method (first_call method args kwargs self)
  /\ sent_args (second_call method args kwargs token self)
     = sent_args (first_call method args kwargs self)
  /\ sent_kwargs (second_call method args kwargs token self)
     = sent_kwargs (first_call method args kwargs self)
  /\ outcome (request method args kwargs) self
     = match second_reply method args kwargs token self with
       | Replied r2 => outcome (conclude (stream_of kwargs) r2) self
       | Failed what => Raise (RequestException what)
       end.
Proof.
  intros Hskip Hhandle Hallowed Hfirst H403 Htok.
  unfold outcome, after.
  rewrite (request_after_403 _ _ _ _ _ _ Hskip Hhandle Hallowed Hfirst Htok).
  cbn zeta. rewrite H403. cbn [Z.eqb Pos.eqb].
  destruct (second_reply _ _ _ _ _) as [r2|what];
    rewrite ?conclude_run; cbn [fst snd]; rewrite calls_after_resend;
    repeat split.
  apply conclude_outcome.
Qed.

Lemma resend_once_after_403_witness :
  truthy (skip_roblox_of ∅) = false
  /\ truthy (handle_xcsrf_token_of ∅) = true
  /\ xcsrf_allowed (lower "POST") = true
  /\ first_reply "POST" endpoint ∅ rejects_twice
     = Replied (forbidden (with_token "T1"))
  /\ status_code (forbidden (with_token "T1")) = 403
  /\ CID.get (xcsrf_token_name rejects_twice)
       (resp_headers (forbidden (with_token "T1"))) = Some "T1"
  /\ calls (after (request "POST" endpoint ∅) rejects_twice)
     = calls rejects_twice
       ++ [first_call "POST" endpoint ∅ rejects_twice;
           second_call "POST" endpoint ∅ "T1" rejects_twice]
  /\ outcome (request "POST" endpoint ∅) rejects_twice
     = Raise (HTTPException
                {| status := 403; errors := VNone;
                   response := forbidden (with_token "T2") |}).
Proof.
  pose proof (resend_once_after_403 "POST" endpoint ∅ rejects_twice
                (forbidden (with_token "T1")) "T1") as H.
  do 6 (lapply H; [clear H; intros H | reflexivity]).
  destruct H as (Hcalls & _ & _ & _ & Hout).
  do 6 (split; [reflexivity|]).
  split; [exact Hcalls|].
  rewrite Hout. reflexivity.
Defined.

(** The claim C1 as it is written fails twice over: a 403 without the
    token header is not followed by a resend, and neither is any 403 when
    [skip_roblox] is set. *)
Lemma no_resend_without_token_or_with_skip :
  (truthy (handle_xcsrf_token_of ∅) = true
   /\ xcsrf_allowed (lower "POST") = true
   /\ first_reply "POST" endpoint ∅ rejects_without_token
      = Replied (forbidden ∅)
   /\ status_code (forbidden ∅) = 403
   /\ calls (after (request "POST" endpoint ∅) rejects_without_token)
      = [first_call "POST" endpoint ∅ rejects_without_token])
  /\ (truthy (handle_xcsrf_token_of kw_skip) = true
      /\ xcsrf_allowed (lower "POST") = true
      /\ first_reply "POST" endpoint kw_skip rejects_then_accepts
         = Replied (forbidden (with_token "T1"))
      /\ status_code (forbidden (with_token "T1")) = 403
      /\ calls (after (request "POST" endpoint kw_skip) rejects_then_accepts)
         = [first_call "POST" endpoint kw_skip rejects_then_accepts]).
Proof. repeat split; vm_compute; reflexivity. Qed.

(** C2, as the code has it.  On a call with an unsafe method,
    [handle_xcsrf_token] enabled and [skip_roblox] not set, when the
    first response carries the token header its value is stored in the
    default headers of the session by the time the call ends, whatever
    the status code is and whether the call returns or raises. *)
Theorem token_captured_unless_skipped (method : string) (args : list Value)
    (kwargs : gmap string Value) (self : Requests)
    (r1 : Response) (token : string) :
  truthy (skip_roblox_of kwargs) = false ->
  truthy (handle_xcsrf_token_of kwargs) = true ->
  xcsrf_allowed (lower method) = true ->
  first_reply method args kwargs self = Replied r1 ->
  CID.get (xcsrf_token_name self) (resp_headers r1) = Some token ->
  session_headers (after (request method args kwargs) self)
  = CID.setitem (xcsrf_token_name self) token (session_headers self)
  /\ CID.get (xcsrf_token_name self)
       (session_headers (after (request method args kwargs) self))
     = Some token.
Proof.
  intros Hskip Hhandle Hallowed Hfirst Htok.
  assert (session_headers (after (request method args kwargs) self)
          = CID.setitem (xcsrf_token_name self) token (session_headers self))
    as Hhdrs.
  { unfold after.
    rewrite (request_after_403 _ _ _ _ _ _ Hskip Hhandle Hallowed Hfirst Htok).
    cbn zeta. destruct (status_code r1 =? 403).
    - now destruct (second_reply _ _ _ _ _); rewrite ?conclude_run.
    - now rewrite conclude_run. }
  split; [exact Hhdrs|]. rewrite Hhdrs. apply get_setitem.
Qed.

Lemma token_captured_unless_skipped_witness :
  truthy (skip_roblox_of ∅) = false
  /\ truthy (handle_xcsrf_token_of ∅) = true
  /\ xcsrf_allowed (lower "DELETE") = true
  /\ first_reply "DELETE" endpoint ∅ answers_500_with_token
     = Replied (mkResponse 500 (with_token "T1") "" None)
  /\ CID.get (xcsrf_token_name answers_500_with_token)
       (with_token "T1") = Some "T1"
  /\ is_http_exception
       (outcome (request "DELETE" endpoint ∅) answers_500_with_token)
     = true
  /\ CID.get "X-CSRF-Token"
       (session_headers
          (after (request "DELETE" endpoint ∅)
             answers_500_with_token))
     = Some "T1".
Proof.
  pose proof (token_captured_unless_skipped "DELETE" endpoint ∅
                answers_500_with_token
                (mkResponse 500 (with_token "T1") "" None) "T1") as H.
  do 5 (lapply H; [clear H; intros H | reflexivity]).
  destruct H as [_ Hget].
  do 6 (split; [reflexivity|]).
  exact Hget.
Defined.

(** The claim C2 as it is written fails when [skip_roblox] is set: the
    token of the response is not stored. *)
Lemma skip_roblox_leaves_token_uncaptured :
  xcsrf_allowed (lower "POST") = true
  /\ truthy (handle_xcsrf_token_of kw_skip) = true
  /\ first_reply "POST" endpoint kw_skip accepts_with_token
     = Replied (mkResponse 200 (with_token "T1") "ok" None)
  /\ CID.get "X-CSRF-Token" (with_token "T1") = Some "T1"
  /\ outcome (request "POST" endpoint kw_skip) accepts_with_token
     = Return (mkResponse 200 (with_token "T1") "ok" None)
  /\ CID.get "X-CSRF-Token"
       (session_headers (after (request "POST" endpoint kw_skip)
                           accepts_with_token))
     = None.
Proof. repeat split; vm_compute; reflexivity. Qed.

(** C5, as the code has it.  [stream] does not skip the token step.  On
    a streamed call without [skip_roblox], with [handle_xcsrf_token]
    enabled and an unsafe method, a first response that carries the token
    header has its token stored in the session; after a 403 the call is
    sent once more and the reply to that second call is what the caller
    gets, otherwise the first response is returned.  Only the translation
    of the status is skipped. *)
Theorem stream_keeps_token_handling (method : string) (args : list Value)
    (kwargs : gmap string Value) (self : Requests)
    (r1 : Response) (token : string) :
  truthy (stream_of kwargs) = true ->
  truthy (skip_roblox_of kwargs) = false ->
  truthy (handle_xcsrf_token_of kwargs) = true ->
  xcsrf_allowed (lower method) = true ->
  first_reply method args kwargs self = Replied r1 ->
  CID.get (xcsrf_token_name self) (resp_headers r1) = Some token ->
  session_headers (after (request method args kwargs) self)
  = CID.setitem (xcsrf_token_name self) token (session_headers self)
  /\ (status_code r1 = 403 ->
      calls (after (request method args kwargs) self)
      = calls self ++ [first_call method args kwargs self;
                       second_call method args kwargs token self]
      /\ outcome (request method args kwargs) self
         = as_result (second_reply method args kwargs token self))
  /\ (status_code r1 <> 403 ->
      calls (after (request method args kwargs) self)
      = calls self ++ [first_call method args kwargs self]
      /\ outcome (request method args kwargs) self = Return r1).
Proof.
  intros Hstream Hskip Hhandle Hallowed Hfirst Htok.
  unfold outcome, after.
  rewrite (request_after_403 _ _ _ _ _ _ Hskip Hhandle Hallowed Hfirst Htok).
  cbn zeta.
  destruct (status_code r1 =? 403) eqn:H403.
  - apply Z.eqb_eq in H403.
    destruct (second_reply _ _ _ _ _);
      rewrite ?(conclude_stream _ _ _ Hstream); cbn [fst snd as_result];
      rewrite calls_after_resend; repeat split; intros; congruence.
  - apply Z.eqb_neq in H403. rewrite (conclude_stream _ _ _ Hstream).
    repeat split; intros; congruence.
Qed.

Lemma stream_keeps_token_handling_witness :
  truthy (stream_of kw_stream) = true
  /\ truthy (skip_roblox_of kw_stream) = false
  /\ truthy (handle_xcsrf_token_of kw_stream) = true
  /\ xcsrf_allowed (lower "POST") = true
  /\ first_reply "POST" endpoint kw_stream rejects_then_accepts
     = Replied (forbidden (with_token "T1"))
  /\ CID.get (xcsrf_token_name rejects_then_accepts)
       (resp_headers (forbidden (with_token "T1"))) = Some "T1"
  /\ session_headers (after (request "POST" endpoint kw_stream)
                        rejects_then_accepts)
     = CID.setitem "X-CSRF-Token" "T1" (session_headers rejects_then_accepts)
  /\ outcome (request "POST" endpoint kw_stream) rejects_then_accepts
     = Return ok_response.
Proof.
  pose proof (stream_keeps_token_handling "POST" endpoint kw_stream
                rejects_then_accepts (forbidden (with_token "T1")) "T1") as H.
  do 6 (lapply H; [clear H; intros H | reflexivity]).
  destruct H as (Hhdrs & Hresend & _).
  destruct (Hresend eq_refl) as [_ Hout].
  do 6 (split; [reflexivity|]).
  split; [exact Hhdrs|].
  rewrite Hout. reflexivity.
Defined.

(** The claim C5 as it is written fails: on a streamed POST a 403 that
    carries a token has the token stored and the call sent again. *)
Lemma stream_call_captures_and_resends :
  truthy (stream_of kw_stream) = true
  /\ CID.get "X-CSRF-Token" (session_headers rejects_then_accepts) = None
  /\ CID.get "X-CSRF-Token"
       (session_headers (after (request "POST" endpoint kw_stream)
                           rejects_then_accepts))
     = Some "T1"
  /\ length (calls rejects_then_accepts) = 0%nat
  /\ length (calls (after (request "POST" endpoint kw_stream)
                      rejects_then_accepts)) = 2%nat
  /\ outcome (request "POST" endpoint kw_stream) rejects_then_accepts
     = Return ok_response.
Proof. repeat split; vm_compute; reflexivity. Qed.

(** ** The method *)





(** What the session itself is handed is the lowercase spelling. *)
Lemma session_is_handed_lowercase (method : string) (args : list Value)
    (kwargs : gmap string Value) (self : Requests) :
  exists new,
    calls (after (request method args kwargs) self) = calls self ++ new
    /\ Forall (fun c => sent_method c = lower method) new.
Proof.
  destruct (request_footprint method args kwargs self)
    as [[Hcalls _]|(r1 & token & _ & _ & _ & Hcalls & _)].
  - exists [first_call method args kwargs self].
    split; [exact Hcalls|]. now repeat constructor.
  - exists [first_call method args kwargs self;
            second_call method args kwargs token self].
    split; [exact Hcalls|]. now repeat constructor.
Qed.

(** ** Error bodies *)

(** A response below 400 is returned as it is. *)
Lemma status_below_400_is_returned (method : string) (args : list Value)
    (kwargs : gmap string Value) (self : Requests) (r : Response) :
  truthy (skip_roblox_of kwargs) = false ->
  last_reply (after (request method args kwargs) self) = Replied r ->
  status_code r < 400 ->
  outcome (request method args kwargs) self = Return r.
Proof.
  intros Hskip Hlast Hstatus.
  rewrite (request_concludes _ _ _ _ Hskip), Hlast.
  unfold outcome, conclude.
  destruct (truthy (stream_of kwargs)); [reflexivity|].
  destruct (status_code r >=? 400) eqn:Hge; [lia|reflexivity].
Qed.

(** A JSON object as error body: its [errors] entry goes into the
    exception. *)
Lemma object_error_body_is_translated (method : string) (args : list Value)
    (kwargs : gmap string Value) (self : Requests) (r : Response)
    (content_type : string) (k : string) (v : Value)
    (items : list (string * Value)) :
  truthy (skip_roblox_of kwargs) = false ->
  truthy (stream_of kwargs) = false ->
  last_reply (after (request method args kwargs) self) = Replied r ->
  400 <= status_code r ->
  CID.get "Content-Type" (resp_headers r) = Some content_type ->
  startswith content_type "application/json" = true ->
  json r = Some (VDict ((k, v) :: items)) ->
  outcome (request method args kwargs) self
  = Raise (HTTPException
             {| status := status_code r;
                errors := items_get ((k, v) :: items) "errors";
                response := r |}).
Proof.
  intros Hskip Hstream Hlast Hstatus Hct Hjson Hbody.
  rewrite (request_concludes _ _ _ _ Hskip), Hlast.
  unfold outcome, conclude. rewrite Hstream.
  destruct (status_code r >=? 400) eqn:Hge; [|lia].
  unfold parse_errors. rewrite Hct, Hjson, (try_json_decoded _ _ Hbody).
  destruct content_type; [discriminate|]. reflexivity.
Qed.

(** Without a Content-Type that starts with application/json the body is
    not decoded at all. *)
Lemma other_content_type_is_not_decoded (stream : Value) (r : Response)
    (self : Requests) :
  truthy stream = false ->
  400 <= status_code r ->
  (forall ct, CID.get "Content-Type" (resp_headers r) = Some ct ->
              startswith ct "application/json" = false) ->
  outcome (conclude stream r) self
  = Raise (HTTPException
             {| status := status_code r; errors := VNone; response := r |}).
Proof.
  intros Hstream Hstatus Hct. unfold outcome, conclude. rewrite Hstream.
  destruct (status_code r >=? 400) eqn:Hge; [|lia].
  unfold parse_errors.
  destruct (CID.get _ _) as [ct|]; [|reflexivity].
  rewrite (Hct ct eq_refl), andb_false_r. reflexivity.
Qed.

(** The example of the spec: a 500 with the body
    [{"errors":[{"code":1,"message":"x"}]}]. *)
Example errors_500_is_translated :
  outcome (request "GET" endpoint ∅) (fresh (scripted [] (Replied errors_500)))
  = Raise (HTTPException
             {| status := 500;
                errors := VList [VDict [("code", VInt 1);
                                        ("message", VStr "x")]];
                response := errors_500 |}).
Proof. vm_compute. reflexivity. Qed.

(** C7 fails on the code.  A 500 announced as JSON whose body is a JSON
    array (any JSON value that is true and is not an object does the
    same) makes [data.get] raise [AttributeError]: the call neither
    streams nor skips, the status is 400 or more, and no
    [HTTPException] is raised. *)
Theorem array_error_body_escapes_translation :
  truthy (skip_roblox_of ∅) = false
  /\ truthy (stream_of ∅) = false
  /\ last_reply (after (request "GET" endpoint ∅) answers_array_500)
     = Replied array_500
  /\ status_code array_500 = 500
  /\ CID.get "Content-Type" (resp_headers array_500)
     = Some "application/json; charset=utf-8"
  /\ outcome (request "GET" endpoint ∅) answers_array_500
     = Raise (AttributeError "get")
  /\ is_http_exception (outcome (request "GET" endpoint ∅) answers_array_500)
     = false.
Proof. repeat split; vm_compute; reflexivity. Qed.

(** * Further properties of the dispatcher *)

(** ** Headers, states and outcomes *)

Lemma get_setitem_lower (key key' value : string) (d : CaseInsensitiveDict) :
  lower key = lower key' -> CID.get key (CID.setitem key' value d) = Some value.
Proof.
  intros H. unfold CID.get, CID.setitem. now rewrite H, lookup_insert_eq.
Qed.

Lemma get_setitem_ne (key key' value : string) (d : CaseInsensitiveDict) :
  lower key <> lower key' ->
  CID.get key (CID.setitem key' value d) = CID.get key d.
Proof.
  intros H. unfold CID.get, CID.setitem.
  now rewrite lookup_insert_ne by congruence.
Qed.

Lemma forwarded_other (kwargs : gmap string Value) (key : string) :
  key <> "handle_xcsrf_token" -> key <> "skip_roblox" ->
  forwarded kwargs !! key = kwargs !! key.
Proof.
  intros H1 H2. unfold forwarded.
  now rewrite !lookup_delete_ne by congruence.
Qed.

Lemma xcsrf_allowed_only (method : string) :
  xcsrf_allowed method = true ->
  method = "post" \/ method = "put" \/ method = "patch" \/ method = "delete".
Proof.
  unfold xcsrf_allowed, _xcsrf_allowed_methods. intros H.
  destruct (decide (method = "post")) as [|H1]; [tauto|].
  destruct (decide (method = "put")) as [|H2]; [tauto|].
  destruct (decide (method = "patch")) as [|H3]; [tauto|].
  destruct (decide (method = "delete")) as [|H4]; [tauto|].
  rewrite !lookup_insert_ne, lookup_singleton_ne in H by congruence.
  discriminate.
Qed.

(** The outcome of a call, read off the reply to the last call sent. *)
Lemma request_outcome (method : string) (args : list Value)
    (kwargs : gmap string Value) (self : Requests) :
  outcome (request method args kwargs) self
  = match last_reply (after (request method args kwargs) self) with
    | Failed what => Raise (RequestException what)
    | Replied r =>
        if truthy (skip_roblox_of kwargs) then Return r
        else outcome (conclude (stream_of kwargs) r) self
    end.
Proof.
  destruct (truthy (skip_roblox_of kwargs)) eqn:Hskip.
  - unfold outcome, after. rewrite (request_skip_run _ _ _ _ Hskip).
    cbn [fst snd].
    change (last_reply _) with (first_reply method args kwargs self).
    now destruct (first_reply _ _ _ _).
  - rewrite (request_concludes _ _ _ _ Hskip).
    now destruct (last_reply _).
Qed.

(** What [conclude] makes of a response, case by case. *)
Lemma conclude_cases (stream : Value) (r : Response) (self : Requests) :
  outcome (conclude stream r) self
  = if truthy stream then Return r
    else if status_code r >=? 400
         then match parse_errors r with
              | Return errors =>
                  Raise (HTTPException
                           {| status := status_code r; errors := errors;
                              response := r |})
              | Raise e => Raise e
              end
         else Return r.
Proof.
  unfold outcome, conclude.
  destruct (truthy stream); [reflexivity|].
  destruct (status_code r >=? 400); [|reflexivity].
  now destruct (parse_errors r).
Qed.

(** [parse_errors] raises the [AttributeError] of [data.get], on a body
    that is decoded, true and not a [dict], or hands on what
    [Response.json()] raised and line 132 does not catch; nothing else. *)
Lemma parse_errors_raises (r : Response) (e : Exception) :
  parse_errors r = Raise e ->
  (exists what, e = DecodeException what /\ json_call r = RaisesOther what)
  \/ (e = AttributeError "get"
      /\ exists ct v,
           CID.get "Content-Type" (resp_headers r) = Some ct
           /\ startswith ct "application/json" = true
           /\ json r = Some v
           /\ truthy v = true
           /\ forall items, v <> VDict items).
Proof.
  unfold parse_errors, try_json, json.
  destruct (CID.get _ _) as [ct|] eqn:Hct; [|discriminate].
  destruct (negb _) eqn:Hne; cbn [andb]; [|discriminate].
  destruct (startswith ct _) eqn:Hpre; [|discriminate].
  destruct (json_call r) as [v| |what] eqn:Hjson.
  - destruct (truthy v) eqn:Htrue; [|discriminate].
    destruct v; try discriminate; intros [= <-]; right;
      (split; [reflexivity|]); eexists _, _; repeat split; eauto;
      discriminate.
  - discriminate.
  - intros [= <-]. left. eauto.
Qed.

Lemma calls_log_call (c : Sent) (self : Requests) :
  calls (log_call c self) = calls self ++ [c].
Proof. reflexivity. Qed.

Lemma calls_store_header (name value : string) (self : Requests) :
  calls (store_header name value self) = calls self.
Proof. reflexivity. Qed.

(** ** Construction *)

(** X1.  [Requests.__init__] on a given session sets User-Agent and
    Referer, under whatever letter case they are then looked up and
    whatever the session held for them; every other header of the session,
    the calls it has made and the given name of the token header are kept. *)
Theorem init_sets_fixed_headers (c : CleanAsyncClient) (name key : string) :
  (lower key = "user-agent" ->
   CID.get key (session_headers (Requests_init c name)) = Some "Roblox/WinInet")
  /\ (lower key = "referer" ->
      CID.get key (session_headers (Requests_init c name))
      = Some "www.roblox.com")
  /\ (lower key <> "user-agent" -> lower key <> "referer" ->
      CID.get key (session_headers (Requests_init c name))
      = CID.get key (Client.headers c))
  /\ calls (Requests_init c name) = Client.wire c
  /\ xcsrf_token_name (Requests_init c name) = name.
Proof.
  assert (session_headers (Requests_init c name)
          = CID.setitem "Referer" "www.roblox.com"
              (CID.setitem "User-Agent" "Roblox/WinInet" (Client.headers c)))
    as -> by reflexivity.
  repeat split.
  - intros H. rewrite get_setitem_ne by (rewrite H; discriminate).
    now apply get_setitem_lower.
  - intros H. now apply get_setitem_lower.
  - intros H1 H2. now rewrite !get_setitem_ne.
Qed.

(** ** How many calls, and which headers *)

(** X2.  A call sends once or twice, never more and never less; it sends
    twice exactly when [skip_roblox] is not set, [handle_xcsrf_token] is
    enabled, the lowercased method is in the table, and the first reply is
    a 403 that carries the token header. *)
Theorem sends_twice_exactly_after_token_403 (method : string)
    (args : list Value) (kwargs : gmap string Value) (self : Requests) :
  (length (calls (after (request method args kwargs) self))
   = S (length (calls self))
   \/ length (calls (after (request method args kwargs) self))
      = S (S (length (calls self))))
  /\ (length (calls (after (request method args kwargs) self))
      = S (S (length (calls self)))
      <-> truthy (skip_roblox_of kwargs) = false
          /\ truthy (handle_xcsrf_token_of kwargs) = true
          /\ xcsrf_allowed (lower method) = true
          /\ exists r1 token,
               first_reply method args kwargs self = Replied r1
               /\ status_code r1 = 403
               /\ CID.get (xcsrf_token_name self) (resp_headers r1)
                  = Some token).
Proof.
  unfold after. rewrite request_run.
  destruct (first_reply _ _ _ _) as [r1|what] eqn:Hfirst.
  2:{ cbn [snd]. rewrite calls_log_call, length_app. cbn [length].
      split; [left; lia|]. split; [lia|].
      intros (_ & _ & _ & r & t & H & _). discriminate. }
  destruct (truthy (skip_roblox_of kwargs)) eqn:Hskip.
  { cbn [snd]. rewrite calls_log_call, length_app. cbn [length].
    split; [left; lia|]. split; [lia|]. intros (H & _). discriminate. }
  destruct (truthy (handle_xcsrf_token_of kwargs)) eqn:Hhandle; cbn [andb].
  2:{ rewrite conclude_run. cbn [snd].
      rewrite calls_log_call, length_app. cbn [length].
      split; [left; lia|]. split; [lia|]. intros (_ & H & _). discriminate. }
  destruct (xcsrf_allowed (lower method)) eqn:Hallowed.
  2:{ rewrite conclude_run. cbn [snd].
      rewrite calls_log_call, length_app. cbn [length].
      split; [left; lia|]. split; [lia|].
      intros (_ & _ & H & _). discriminate. }
  destruct (CID.get _ _) as [token|] eqn:Htok.
  2:{ rewrite conclude_run. cbn [snd].
      rewrite calls_log_call, length_app. cbn [length].
      split; [left; lia|]. split; [lia|].
      intros (_ & _ & _ & r & t & [= <-] & _ & H). congruence. }
  destruct (status_code r1 =? 403) eqn:H403.
  - apply Z.eqb_eq in H403.
    assert (length (calls (log_call (second_call method args kwargs token self)
                             (store_header (xcsrf_token_name self) token
                                (log_call (first_call method args kwargs self)
                                   self))))
            = S (S (length (calls self)))) as Hlen.
    { rewrite calls_after_resend, length_app. cbn [length]. lia. }
    destruct (second_reply _ _ _ _ _); rewrite ?conclude_run; cbn [snd];
      (split; [right; exact Hlen|]); (split; [|intros _; exact Hlen]);
      intros _; repeat split; eauto.
  - apply Z.eqb_neq in H403. rewrite conclude_run. cbn [snd].
    rewrite calls_store_header, calls_log_call, length_app. cbn [length].
    split; [left; lia|]. split; [lia|].
    intros (_ & _ & _ & r & t & [= <-] & H & _). congruence.
Qed.

(** X3.  A call changes no header of the session but the token header:
    under every name that differs from the name of the token header by
    more than letter case, the session holds after the call what it held
    before. *)
Theorem other_headers_are_untouched (method : string) (args : list Value)
    (kwargs : gmap string Value) (self : Requests) (key : string) :
  lower key <> lower (xcsrf_token_name self) ->
  CID.get key (session_headers (after (request method args kwargs) self))
  = CID.get key (session_headers self).
Proof.
  intros Hkey.
  destruct (request_footprint method args kwargs self)
    as [[_ [Hsame|(r1 & token & _ & _ & _ & Hset)]]
       |(r1 & token & _ & _ & _ & _ & Hset)].
  - now rewrite Hsame.
  - rewrite Hset. now apply get_setitem_ne.
  - rewrite Hset. now apply get_setitem_ne.
Qed.

Lemma other_headers_are_untouched_witness :
  lower "User-Agent" <> lower (xcsrf_token_name rejects_twice)
  /\ CID.get "User-Agent"
       (session_headers (after (request "POST" endpoint ∅) rejects_twice))
     = Some "Roblox/WinInet".
Proof.
  assert (lower "User-Agent" <> lower (xcsrf_token_name rejects_twice))
    as Hkey by discriminate.
  split; [exact Hkey|].
  rewrite (other_headers_are_untouched "POST" endpoint ∅ rejects_twice
             "User-Agent" Hkey).
  reflexivity.
Defined.

(** X4.  With [handle_xcsrf_token] false the token step does nothing:
    whatever the method and the response, the headers of the session are
    left as they were and exactly one call is sent. *)
Theorem handle_disabled_is_inert (method : string) (args : list Value)
    (kwargs : gmap string Value) (self : Requests) :
  truthy (handle_xcsrf_token_of kwargs) = false ->
  session_headers (after (request method args kwargs) self)
  = session_headers self
  /\ calls (after (request method args kwargs) self)
     = calls self ++ [first_call method args kwargs self].
Proof.
  intros Hhandle. unfold after. rewrite request_run, Hhandle. cbn [andb].
  destruct (first_reply _ _ _ _); [|now split].
  destruct (truthy (skip_roblox_of kwargs)); [now split|].
  now rewrite conclude_run.
Qed.

Lemma handle_disabled_is_inert_witness :
  truthy (handle_xcsrf_token_of kw_no_handle) = false
  /\ first_reply "POST" endpoint kw_no_handle rejects_then_accepts
     = Replied (forbidden (with_token "T1"))
  /\ session_headers
       (after (request "POST" endpoint kw_no_handle) rejects_then_accepts)
     = session_headers rejects_then_accepts
  /\ calls (after (request "POST" endpoint kw_no_handle) rejects_then_accepts)
     = calls rejects_then_accepts
       ++ [first_call "POST" endpoint kw_no_handle rejects_then_accepts].
Proof.
  split; [reflexivity|]. split; [reflexivity|].
  apply (handle_disabled_is_inert "POST" endpoint kw_no_handle
           rejects_then_accepts).
  reflexivity.
Defined.

(** X5.  A first response that does not carry the token header, under
    any letter case of its name, is never followed by a resend and leaves
    the headers of the session as they were, a 403 on an unsafe method
    included. *)
Theorem response_without_token_is_final (method : string)
    (args : list Value) (kwargs : gmap string Value) (self : Requests)
    (r1 : Response) :
  first_reply method args kwargs self = Replied r1 ->
  CID.get (xcsrf_token_name self) (resp_headers r1) = None ->
  session_headers (after (request method args kwargs) self)
  = session_headers self
  /\ calls (after (request method args kwargs) self)
     = calls self ++ [first_call method args kwargs self]
  /\ last_reply (after (request method args kwargs) self) = Replied r1.
Proof.
  intros Hfirst Htok. unfold after. rewrite request_run, Hfirst, Htok.
  destruct (truthy (skip_roblox_of kwargs)); [now repeat split|].
  destruct (_ && _)%bool; now rewrite conclude_run.
Qed.

Lemma response_without_token_is_final_witness :
  first_reply "POST" endpoint ∅ rejects_without_token = Replied (forbidden ∅)
  /\ CID.get (xcsrf_token_name rejects_without_token)
       (resp_headers (forbidden ∅)) = None
  /\ session_headers
       (after (request "POST" endpoint ∅) rejects_without_token)
     = session_headers rejects_without_token
  /\ calls (after (request "POST" endpoint ∅) rejects_without_token)
     = calls rejects_without_token
       ++ [first_call "POST" endpoint ∅ rejects_without_token]
  /\ last_reply (after (request "POST" endpoint ∅) rejects_without_token)
     = Replied (forbidden ∅).
Proof.
  split; [reflexivity|]. split; [reflexivity|].
  apply (response_without_token_is_final "POST" endpoint ∅
           rejects_without_token (forbidden ∅)); reflexivity.
Defined.

(** X6.  Only post, put, patch and delete are in the table: a call with
    any other method (head, options, get, a method of one's own) stores no
    token and sends exactly once. *)
Theorem unlisted_method_is_exempt (method : string) (args : list Value)
    (kwargs : gmap string Value) (self : Requests) :
  lower method <> "post" -> lower method <> "put" ->
  lower method <> "patch" -> lower method <> "delete" ->
  session_headers (after (request method args kwargs) self)
  = session_headers self
  /\ calls (after (request method args kwargs) self)
     = calls self ++ [first_call method args kwargs self].
Proof.
  intros H1 H2 H3 H4.
  assert (xcsrf_allowed (lower method) = false) as Hallowed.
  { destruct (xcsrf_allowed (lower method)) eqn:H; [|reflexivity].
    apply xcsrf_allowed_only in H. tauto. }
  unfold after. rewrite request_run, Hallowed, andb_false_r.
  destruct (first_reply _ _ _ _); [|now split].
  destruct (truthy (skip_roblox_of kwargs)); [now split|].
  now rewrite conclude_run.
Qed.

Lemma unlisted_method_is_exempt_witness :
  lower "OPTIONS" <> "post" /\ lower "OPTIONS" <> "put"
  /\ lower "OPTIONS" <> "patch" /\ lower "OPTIONS" <> "delete"
  /\ first_reply "OPTIONS" endpoint ∅ rejects_then_accepts
     = Replied (forbidden (with_token "T1"))
  /\ session_headers
       (after (request "OPTIONS" endpoint ∅) rejects_then_accepts)
     = session_headers rejects_then_accepts
  /\ calls (after (request "OPTIONS" endpoint ∅) rejects_then_accepts)
     = calls rejects_then_accepts
       ++ [first_call "OPTIONS" endpoint ∅ rejects_then_accepts].
Proof.
  do 4 (split; [discriminate|]). split; [reflexivity|].
  apply (unlisted_method_is_exempt "OPTIONS" endpoint ∅ rejects_then_accepts);
    discriminate.
Defined.

(** ** What the session is handed *)

(** X7.  Every call handed to the session carries the positional
    arguments as given and the keywords as given except
    [handle_xcsrf_token] and [skip_roblox], which never reach the session;
    [stream] and every other keyword are passed through with their
    values. *)
Theorem options_never_reach_the_session (method : string)
    (args : list Value) (kwargs : gmap string Value) (self : Requests) :
  exists new,
    calls (after (request method args kwargs) self) = calls self ++ new
    /\ Forall (fun c =>
                 sent_args c = args
                 /\ sent_kwargs c !! "handle_xcsrf_token" = None
                 /\ sent_kwargs c !! "skip_roblox" = None
                 /\ sent_kwargs c !! "stream" = kwargs !! "stream"
                 /\ forall key, key <> "handle_xcsrf_token" ->
                                key <> "skip_roblox" ->
                                sent_kwargs c !! key = kwargs !! key) new.
Proof.
  assert (forall h,
             (fun c =>
                sent_args c = args
                /\ sent_kwargs c !! "handle_xcsrf_token" = None
                /\ sent_kwargs c !! "skip_roblox" = None
                /\ sent_kwargs c !! "stream" = kwargs !! "stream"
                /\ forall key, key <> "handle_xcsrf_token" ->
                               key <> "skip_roblox" ->
                               sent_kwargs c !! key = kwargs !! key)
               (mkSent (lower method) args (forwarded kwargs) h)) as Hcall.
  { intros h. cbn [sent_args sent_kwargs].
    destruct (forwarded_lookup kwargs) as (Hs & Hk & Hh).
    repeat split; auto. intros key. apply forwarded_other. }
  destruct (request_footprint method args kwargs self)
    as [[Hcalls _]|(r1 & token & _ & _ & _ & Hcalls & _)].
  - exists [first_call method args kwargs self]. split; [exact Hcalls|].
    constructor; [apply Hcall|constructor].
  - exists [first_call method args kwargs self;
            second_call method args kwargs token self].
    split; [exact Hcalls|].
    constructor; [apply Hcall|]. constructor; [apply Hcall|constructor].
Qed.

(** ** Outcomes *)

(** X8.  A transport failure is raised to the caller as it is, at the
    first send or at the resend and whatever the options are; and the call
    raises a [RequestException] for no other reason than the failure of the
    last call it sent. *)
Theorem transport_failure_is_raised_as_is (method : string)
    (args : list Value) (kwargs : gmap string Value) (self : Requests)
    (what : string) :
  last_reply (after (request method args kwargs) self) = Failed what
  <-> outcome (request method args kwargs) self
      = Raise (RequestException what).
Proof.
  rewrite request_outcome.
  destruct (last_reply _) as [r|w]; split.
  - discriminate.
  - destruct (truthy (skip_roblox_of kwargs)); [discriminate|].
    rewrite conclude_cases.
    destruct (truthy (stream_of kwargs)); [discriminate|].
    destruct (status_code r >=? 400); [|discriminate].
    destruct (parse_errors r) as [v|e] eqn:Hparse; [discriminate|].
    apply parse_errors_raises in Hparse as [(w & -> & _)|[-> _]];
      discriminate.
  - now intros [= ->].
  - now intros [= ->].
Qed.

(** X9.  On a call that neither streams nor skips, the reply to the last
    call sent, when it is a response, is returned exactly when its status
    is below 400: such a call never hands an error response back. *)
Theorem returned_exactly_below_400 (method : string) (args : list Value)
    (kwargs : gmap string Value) (self : Requests) (r : Response) :
  truthy (skip_roblox_of kwargs) = false ->
  truthy (stream_of kwargs) = false ->
  last_reply (after (request method args kwargs) self) = Replied r ->
  (outcome (request method args kwargs) self = Return r
   <-> status_code r < 400).
Proof.
  intros Hskip Hstream Hlast.
  rewrite request_outcome, Hlast, Hskip, conclude_cases, Hstream.
  destruct (status_code r >=? 400) eqn:Hge.
  - split; [|lia]. now destruct (parse_errors r).
  - split; [lia|reflexivity].
Qed.

Lemma returned_exactly_below_400_witness :
  truthy (skip_roblox_of ∅) = false
  /\ truthy (stream_of ∅) = false
  /\ last_reply (after (request "POST" endpoint ∅) rejects_then_accepts)
     = Replied ok_response
  /\ status_code ok_response < 400
  /\ outcome (request "POST" endpoint ∅) rejects_then_accepts
     = Return ok_response.
Proof.
  assert (status_code ok_response < 400) as Hlt by (vm_compute; reflexivity).
  do 3 (split; [reflexivity|]). split; [exact Hlt|].
  apply (returned_exactly_below_400 "POST" endpoint ∅ rejects_then_accepts
           ok_response); first [reflexivity | exact Hlt].
Defined.

(** X10.  An [HTTPException] is raised only on a call that neither
    skips nor streams; it carries the response that answered the last call
    sent, the status code of that response, and that status is 400 or
    more. *)
Theorem http_exception_only_for_error_status (method : string)
    (args : list Value) (kwargs : gmap string Value) (self : Requests)
    (e : DomainError) :
  outcome (request method args kwargs) self = Raise (HTTPException e) ->
  truthy (skip_roblox_of kwargs) = false
  /\ truthy (stream_of kwargs) = false
  /\ last_reply (after (request method args kwargs) self)
     = Replied (response e)
  /\ status e = status_code (response e)
  /\ 400 <= status e.
Proof.
  rewrite request_outcome.
  destruct (last_reply _) as [r|w]; [|discriminate].
  destruct (truthy (skip_roblox_of kwargs)); [discriminate|].
  rewrite conclude_cases.
  destruct (truthy (stream_of kwargs)); [discriminate|].
  destruct (status_code r >=? 400) eqn:Hge; [|discriminate].
  destruct (parse_errors r) as [v|e'] eqn:Hparse.
  - intros [= <-]. cbn [response status]. repeat split. lia.
  - apply parse_errors_raises in Hparse as [(w & -> & _)|[-> _]];
      discriminate.
Qed.

Lemma http_exception_only_for_error_status_witness :
  outcome (request "GET" endpoint ∅) (answers errors_500)
  = Raise (HTTPException
             {| status := 500;
                errors := VList [VDict [("code", VInt 1);
                                        ("message", VStr "x")]];
                response := errors_500 |})
  /\ last_reply (after (request "GET" endpoint ∅) (answers errors_500))
     = Replied errors_500.
Proof.
  assert (outcome (request "GET" endpoint ∅) (answers errors_500)
          = Raise (HTTPException
                     {| status := 500;
                        errors := VList [VDict [("code", VInt 1);
                                                ("message", VStr "x")]];
                        response := errors_500 |})) as Hout
    by (vm_compute; reflexivity).
  split; [exact Hout|].
  destruct (http_exception_only_for_error_status "GET" endpoint ∅
              (answers errors_500) _ Hout) as (_ & _ & Hlast & _).
  exact Hlast.
Defined.

(** ** The errors of an error body *)

Lemma items_get_missing (items : list (string * Value)) (key : string) :
  Forall (fun kv => fst kv <> key) items -> items_get items key = VNone.
Proof.
  induction 1 as [|[k v] items Hk _ IH]; [reflexivity|].
  cbn [items_get]. cbn [fst] in Hk.
  apply String.eqb_neq in Hk. now rewrite Hk.
Qed.

Lemma items_get_in (items : list (string * Value)) (key : string) (v : Value) :
  NoDup (map fst items) -> In (key, v) items -> items_get items key = v.
Proof.
  induction items as [|[k w] items IH]; [intros _ []|].
  cbn [map fst items_get]. intros Hnodup Hin.
  apply NoDup_cons in Hnodup as [Hk Hnodup].
  destruct (String.eqb k key) eqn:Heq.
  - apply String.eqb_eq in Heq as ->.
    destruct Hin as [[= ->]|Hin]; [reflexivity|].
    exfalso. apply Hk. apply list_elem_of_In.
    change key with (fst (key, v)). now apply in_map.
  - destruct Hin as [[= -> _]|Hin]; [|now apply IH].
    rewrite String.eqb_refl in Heq. discriminate.
Qed.

(** What line 134 computes once the body is decoded. *)
Lemma parse_errors_decoded (r : Response) (ct : string) (v : Value) :
  CID.get "Content-Type" (resp_headers r) = Some ct ->
  startswith ct "application/json" = true ->
  json r = Some v ->
  parse_errors r
  = if truthy v
    then match v with
         | VDict items => Return (items_get items "errors")
         | _ => Raise (AttributeError "get")
         end
    else Return v.
Proof.
  intros Hct Hpre Hjson. unfold parse_errors.
  rewrite Hct, Hpre, (try_json_decoded _ _ Hjson).
  destruct ct; [discriminate|]. reflexivity.
Qed.

(** X13.  When the body of the error response decodes to a value that is
    false (the empty object, the empty array, zero, the empty string,
    false, null), the errors of the [HTTPException] are that value itself:
    [data and data.get("errors")] stops at [data]. *)
Theorem falsy_body_becomes_the_errors (method : string) (args : list Value)
    (kwargs : gmap string Value) (self : Requests) (r : Response)
    (content_type : string) (v : Value) :
  truthy (skip_roblox_of kwargs) = false ->
  truthy (stream_of kwargs) = false ->
  last_reply (after (request method args kwargs) self) = Replied r ->
  400 <= status_code r ->
  CID.get "Content-Type" (resp_headers r) = Some content_type ->
  startswith content_type "application/json" = true ->
  json r = Some v ->
  truthy v = false ->
  outcome (request method args kwargs) self
  = Raise (HTTPException
             {| status := status_code r; errors := v; response := r |}).
Proof.
  intros Hskip Hstream Hlast Hstatus Hct Hpre Hjson Hfalse.
  rewrite request_outcome, Hlast, Hskip, conclude_cases, Hstream.
  destruct (status_code r >=? 400) eqn:Hge; [|lia].
  now rewrite (parse_errors_decoded _ _ _ Hct Hpre Hjson), Hfalse.
Qed.

Lemma falsy_body_becomes_the_errors_witness :
  truthy (skip_roblox_of ∅) = false
  /\ truthy (stream_of ∅) = false
  /\ last_reply (after (request "GET" endpoint ∅) (answers empty_object_500))
     = Replied empty_object_500
  /\ 400 <= status_code empty_object_500
  /\ json empty_object_500 = Some (VDict [])
  /\ truthy (VDict []) = false
  /\ outcome (request "GET" endpoint ∅) (answers empty_object_500)
     = Raise (HTTPException
                {| status := 500; errors := VDict [];
                   response := empty_object_500 |}).
Proof.
  assert (400 <= status_code empty_object_500) as Hstatus
    by (vm_compute; discriminate).
  do 3 (split; [reflexivity|]). split; [exact Hstatus|].
  do 2 (split; [reflexivity|]).
  apply (falsy_body_becomes_the_errors "GET" endpoint ∅
           (answers empty_object_500) empty_object_500
           "application/json; charset=utf-8" (VDict []));
    first [reflexivity | exact Hstatus].
Defined.

(** X14.  When the body of the error response decodes to an object that
    has an [errors] entry, the [HTTPException] carries the value of that
    entry as its errors. *)
Theorem errors_entry_becomes_the_errors (method : string)
    (args : list Value) (kwargs : gmap string Value) (self : Requests)
    (r : Response) (content_type : string)
    (items : list (string * Value)) (v : Value) :
  truthy (skip_roblox_of kwargs) = false ->
  truthy (stream_of kwargs) = false ->
  last_reply (after (request method args kwargs) self) = Replied r ->
  400 <= status_code r ->
  CID.get "Content-Type" (resp_headers r) = Some content_type ->
  startswith content_type "application/json" = true ->
  json r = Some (VDict items) ->
  NoDup (map fst items) ->
  In ("errors", v) items ->
  outcome (request method args kwargs) self
  = Raise (HTTPException
             {| status := status_code r; errors := v; response := r |}).
Proof.
  intros Hskip Hstream Hlast Hstatus Hct Hpre Hjson Hnodup Hin.
  rewrite request_outcome, Hlast, Hskip, conclude_cases, Hstream.
  destruct (status_code r >=? 400) eqn:Hge; [|lia].
  rewrite (parse_errors_decoded _ _ _ Hct Hpre Hjson).
  destruct items as [|kv items]; [destruct Hin|]. cbn [truthy].
  now rewrite (items_get_in _ _ _ Hnodup Hin).
Qed.

Lemma errors_entry_becomes_the_errors_witness :
  json errors_500
  = Some (VDict [("errors",
                  VList [VDict [("code", VInt 1); ("message", VStr "x")]])])
  /\ outcome (request "DELETE" endpoint ∅) (answers errors_500)
     = Raise (HTTPException
                {| status := 500;
                   errors := VList [VDict [("code", VInt 1);
                                           ("message", VStr "x")]];
                   response := errors_500 |}).
Proof.
  split; [reflexivity|].
  apply (errors_entry_becomes_the_errors "DELETE" endpoint ∅
           (answers errors_500) errors_500
           "application/json; charset=utf-8"
           [("errors",
             VList [VDict [("code", VInt 1); ("message", VStr "x")]])]).
  - reflexivity.
  - reflexivity.
  - reflexivity.
  - vm_compute. discriminate.
  - reflexivity.
  - reflexivity.
  - reflexivity.
  - cbn [map fst]. apply NoDup_cons. split; [apply not_elem_of_nil|].
    apply NoDup_nil. exact I.
  - left. reflexivity.
Defined.

(** X15.  When the body of the error response decodes to an object that
    is not empty and has no [errors] entry, the [HTTPException] is raised
    with no errors. *)
Theorem object_without_errors_entry (method : string) (args : list Value)
    (kwargs : gmap string Value) (self : Requests) (r : Response)
    (content_type : string) (items : list (string * Value)) :
  truthy (skip_roblox_of kwargs) = false ->
  truthy (stream_of kwargs) = false ->
  last_reply (after (request method args kwargs) self) = Replied r ->
  400 <= status_code r ->
  CID.get "Content-Type" (resp_headers r) = Some content_type ->
  startswith content_type "application/json" = true ->
  json r = Some (VDict items) ->
  items <> [] ->
  Forall (fun kv => fst kv <> "errors") items ->
  outcome (request method args kwargs) self
  = Raise (HTTPException
             {| status := status_code r; errors := VNone; response := r |}).
Proof.
  intros Hskip Hstream Hlast Hstatus Hct Hpre Hjson Hne Hkeys.
  rewrite request_outcome, Hlast, Hskip, conclude_cases, Hstream.
  destruct (status_code r >=? 400) eqn:Hge; [|lia].
  rewrite (parse_errors_decoded _ _ _ Hct Hpre Hjson).
  destruct items as [|kv items]; [congruence|]. cbn [truthy].
  now rewrite (items_get_missing _ _ Hkeys).
Qed.

Lemma object_without_errors_entry_witness :
  json no_errors_key_500 = Some (VDict [("message", VStr "x")])
  /\ outcome (request "GET" endpoint ∅) (answers no_errors_key_500)
     = Raise (HTTPException
                {| status := 500; errors := VNone;
                   response := no_errors_key_500 |}).
Proof.
  split; [reflexivity|].
  apply (object_without_errors_entry "GET" endpoint ∅
           (answers no_errors_key_500) no_errors_key_500
           "application/json; charset=utf-8" [("message", VStr "x")]).
  - reflexivity.
  - reflexivity.
  - reflexivity.
  - vm_compute. discriminate.
  - reflexivity.
  - reflexivity.
  - reflexivity.
  - discriminate.
  - constructor; [discriminate|constructor].
Defined.

(** X16.  Unless the Content-Type of the error response starts with
    application/json, in exactly these letters, the body is not decoded:
    the [HTTPException] is raised with no errors whatever the body holds. *)
Theorem body_ignored_without_json_content_type (method : string)
    (args : list Value) (kwargs : gmap string Value) (self : Requests)
    (r : Response) :
  truthy (skip_roblox_of kwargs) = false ->
  truthy (stream_of kwargs) = false ->
  last_reply (after (request method args kwargs) self) = Replied r ->
  400 <= status_code r ->
  (forall ct, CID.get "Content-Type" (resp_headers r) = Some ct ->
              startswith ct "application/json" = false) ->
  outcome (request method args kwargs) self
  = Raise (HTTPException
             {| status := status_code r; errors := VNone; response := r |}).
Proof.
  intros Hskip Hstream Hlast Hstatus Hct.
  rewrite request_outcome, Hlast, Hskip.
  now apply other_content_type_is_not_decoded.
Qed.

Lemma body_ignored_without_json_content_type_witness :
  json html_labelled_500 = json errors_500
  /\ CID.get "Content-Type" (resp_headers html_labelled_500)
     = Some "text/html"
  /\ outcome (request "GET" endpoint ∅) (answers html_labelled_500)
     = Raise (HTTPException
                {| status := 500; errors := VNone;
                   response := html_labelled_500 |}).
Proof.
  split; [reflexivity|]. split; [reflexivity|].
  apply (body_ignored_without_json_content_type "GET" endpoint ∅
           (answers html_labelled_500) html_labelled_500).
  - reflexivity.
  - reflexivity.
  - reflexivity.
  - vm_compute. discriminate.
  - intros ct Hct.
    assert (Some ct = Some "text/html") as Heq
      by (rewrite <- Hct; reflexivity).
    injection Heq as ->. reflexivity.
Defined.

(** ** From one call to the next *)

(** The headers of the session once a token has been captured. *)
Lemma headers_after_capture (method : string) (args : list Value)
    (kwargs : gmap string Value) (self : Requests)
    (r1 : Response) (token : string) :
  truthy (skip_roblox_of kwargs) = false ->
  truthy (handle_xcsrf_token_of kwargs) = true ->
  xcsrf_allowed (lower method) = true ->
  first_reply method args kwargs self = Replied r1 ->
  CID.get (xcsrf_token_name self) (resp_headers r1) = Some token ->
  session_headers (after (request method args kwargs) self)
  = CID.setitem (xcsrf_token_name self) token (session_headers self).
Proof.
  intros Hskip Hhandle Hallowed Hfirst Htok. unfold after.
  rewrite (request_after_403 _ _ _ _ _ _ Hskip Hhandle Hallowed Hfirst Htok).
  cbn zeta. destruct (status_code r1 =? 403).
  - now destruct (second_reply _ _ _ _ _); rewrite ?conclude_run.
  - now rewrite conclude_run.
Qed.

(** The first of the calls that a call adds. *)
Lemma request_first_call (method : string) (args : list Value)
    (kwargs : gmap string Value) (self : Requests) :
  exists rest,
    calls (after (request method args kwargs) self)
    = calls self ++ first_call method args kwargs self :: rest.
Proof.
  destruct (request_footprint method args kwargs self)
    as [[Hcalls _]|(r1 & token & _ & _ & _ & Hcalls & _)];
    rewrite Hcalls; eauto.
Qed.

(** X17.  A token captured by one call is presented by the next: after a
    call that captured [token], whatever call is made next on the same
    object first sends with the session headers holding [token] under the
    name of the token header. *)
Theorem captured_token_is_presented_next (method : string)
    (args : list Value) (kwargs : gmap string Value) (self : Requests)
    (r1 : Response) (token : string)
    (method' : string) (args' : list Value) (kwargs' : gmap string Value) :
  truthy (skip_roblox_of kwargs) = false ->
  truthy (handle_xcsrf_token_of kwargs) = true ->
  xcsrf_allowed (lower method) = true ->
  first_reply method args kwargs self = Replied r1 ->
  CID.get (xcsrf_token_name self) (resp_headers r1) = Some token ->
  exists c rest,
    calls (after (request method' args' kwargs')
             (after (request method args kwargs) self))
    = calls (after (request method args kwargs) self) ++ c :: rest
    /\ sent_method c = lower method'
    /\ CID.get (xcsrf_token_name self) (sent_headers c) = Some token.
Proof.
  intros Hskip Hhandle Hallowed Hfirst Htok.
  destruct (request_first_call method' args' kwargs'
              (after (request method args kwargs) self)) as [rest Hcalls].
  eexists _, rest. split; [exact Hcalls|]. split; [reflexivity|].
  cbn [first_call sent_headers].
  rewrite (headers_after_capture _ _ _ _ _ _ Hskip Hhandle Hallowed Hfirst Htok).
  apply get_setitem.
Qed.

Lemma captured_token_is_presented_next_witness :
  truthy (skip_roblox_of ∅) = false
  /\ truthy (handle_xcsrf_token_of ∅) = true
  /\ xcsrf_allowed (lower "POST") = true
  /\ first_reply "POST" endpoint ∅ accepts_with_token
     = Replied (mkResponse 200 (with_token "T1") "ok" None)
  /\ exists c rest,
       calls (after (request "GET" endpoint ∅)
                (after (request "POST" endpoint ∅) accepts_with_token))
       = calls (after (request "POST" endpoint ∅) accepts_with_token)
         ++ c :: rest
       /\ sent_method c = lower "GET"
       /\ CID.get (xcsrf_token_name accepts_with_token) (sent_headers c)
          = Some "T1".
Proof.
  do 4 (split; [reflexivity|]).
  apply (captured_token_is_presented_next "POST" endpoint ∅
           accepts_with_token (mkResponse 200 (with_token "T1") "ok" None)
           "T1" "GET" endpoint ∅); reflexivity.
Defined.

(** X18.  Capturing the token that the session already holds changes
    nothing that can be read from its headers: under every name the
    session holds after the call what it held before. *)
Theorem same_token_leaves_headers_as_read (method : string)
    (args : list Value) (kwargs : gmap string Value) (self : Requests)
    (r1 : Response) (token key : string) :
  truthy (skip_roblox_of kwargs) = false ->
  truthy (handle_xcsrf_token_of kwargs) = true ->
  xcsrf_allowed (lower method) = true ->
  first_reply method args kwargs self = Replied r1 ->
  CID.get (xcsrf_token_name self) (resp_headers r1) = Some token ->
  CID.get (xcsrf_token_name self) (session_headers self) = Some token ->
  CID.get key (session_headers (after (request method args kwargs) self))
  = CID.get key (session_headers self).
Proof.
  intros Hskip Hhandle Hallowed Hfirst Htok Hheld.
  rewrite (headers_after_capture _ _ _ _ _ _ Hskip Hhandle Hallowed Hfirst Htok).
  destruct (decide (lower key = lower (xcsrf_token_name self))) as [Heq|Hne].
  - rewrite (get_setitem_lower _ _ _ _ Heq), <- Hheld.
    unfold CID.get. now rewrite Heq.
  - now apply get_setitem_ne.
Qed.

Lemma same_token_leaves_headers_as_read_witness :
  truthy (skip_roblox_of ∅) = false
  /\ truthy (handle_xcsrf_token_of ∅) = true
  /\ xcsrf_allowed (lower "PUT") = true
  /\ first_reply "PUT" endpoint ∅ holds_token
     = Replied (mkResponse 200 (with_token "T1") "ok" None)
  /\ CID.get (xcsrf_token_name holds_token) (session_headers holds_token)
     = Some "T1"
  /\ CID.get "x-csrf-token"
       (session_headers (after (request "PUT" endpoint ∅) holds_token))
     = CID.get "x-csrf-token" (session_headers holds_token).
Proof.
  do 5 (split; [reflexivity|]).
  apply (same_token_leaves_headers_as_read "PUT" endpoint ∅ holds_token
           (mkResponse 200 (with_token "T1") "ok" None) "T1" "x-csrf-token");
    reflexivity.
Defined.

(** ** The wrappers *)




(** ** The guard of line 115 and the lines it protects *)

(** X11.  The membership test of line 115 makes the subscript of line
    116 safe: on a call that gets as far as the token step with the token
    header found in the first response by [in], the subscript returns a
    value, and that value is what the session holds under the name of the
    token header when the call ends. *)
Theorem guard_makes_the_subscript_safe (method : string) (args : list Value)
    (kwargs : gmap string Value) (self : Requests) (r1 : Response) :
  truthy (skip_roblox_of kwargs) = false ->
  truthy (handle_xcsrf_token_of kwargs) = true ->
  xcsrf_allowed (lower method) = true ->
  first_reply method args kwargs self = Replied r1 ->
  CID.contains (xcsrf_token_name self) (resp_headers r1) = true ->
  exists token,
    outcome (getitem (xcsrf_token_name self) r1) self = Return token
    /\ session_headers (after (request method args kwargs) self)
       = CID.setitem (xcsrf_token_name self) token (session_headers self)
    /\ CID.get (xcsrf_token_name self)
         (session_headers (after (request method args kwargs) self))
       = Some token.
Proof.
  intros Hskip Hhandle Hallowed Hfirst Hin.
  apply contains_get in Hin as [token Htok]. exists token.
  split; [unfold outcome, getitem; now rewrite Htok|].
  rewrite (headers_after_capture _ _ _ _ _ _ Hskip Hhandle Hallowed Hfirst Htok).
  split; [reflexivity|apply get_setitem].
Qed.

Lemma guard_makes_the_subscript_safe_witness :
  truthy (skip_roblox_of ∅) = false
  /\ truthy (handle_xcsrf_token_of ∅) = true
  /\ xcsrf_allowed (lower "POST") = true
  /\ first_reply "POST" endpoint ∅ rejects_twice
     = Replied (forbidden (with_token "T1"))
  /\ CID.contains (xcsrf_token_name rejects_twice)
       (resp_headers (forbidden (with_token "T1"))) = true
  /\ exists token,
       outcome (getitem (xcsrf_token_name rejects_twice)
                  (forbidden (with_token "T1"))) rejects_twice
       = Return token
       /\ session_headers (after (request "POST" endpoint ∅) rejects_twice)
          = CID.setitem (xcsrf_token_name rejects_twice) token
              (session_headers rejects_twice)
       /\ CID.get (xcsrf_token_name rejects_twice)
            (session_headers (after (request "POST" endpoint ∅) rejects_twice))
          = Some token.
Proof.
  do 5 (split; [reflexivity|]).
  apply (guard_makes_the_subscript_safe "POST" endpoint ∅ rejects_twice
           (forbidden (with_token "T1"))); reflexivity.
Defined.

(** X12.  Line 134 on a body that is not an object: on a call that
    neither skips nor streams, when the reply to the last call sent has a
    status of 400 or more, a Content-Type that starts with
    application/json and a body that decodes to a value that is true and
    is not a [dict] (an array that is not empty, a string that is not
    empty, a number that is not zero, true), [data.get] raises
    [AttributeError] and the call ends with it, not with an
    [HTTPException]. *)
Theorem truthy_non_object_body_raises_attribute_error (method : string)
    (args : list Value) (kwargs : gmap string Value) (self : Requests)
    (r : Response) (content_type : string) (v : Value) :
  truthy (skip_roblox_of kwargs) = false ->
  truthy (stream_of kwargs) = false ->
  last_reply (after (request method args kwargs) self) = Replied r ->
  400 <= status_code r ->
  CID.get "Content-Type" (resp_headers r) = Some content_type ->
  startswith content_type "application/json" = true ->
  json r = Some v ->
  truthy v = true ->
  (forall items, v <> VDict items) ->
  outcome (request method args kwargs) self = Raise (AttributeError "get").
Proof.
  intros Hskip Hstream Hlast Hstatus Hct Hpre Hjson Htrue Hdict.
  rewrite request_outcome, Hlast, Hskip, conclude_cases, Hstream.
  destruct (status_code r >=? 400) eqn:Hge; [|lia].
  rewrite (parse_errors_decoded _ _ _ Hct Hpre Hjson), Htrue.
  destruct v; try reflexivity. now destruct (Hdict items).
Qed.

Lemma truthy_non_object_body_raises_attribute_error_witness :
  truthy (skip_roblox_of ∅) = false
  /\ truthy (stream_of ∅) = false
  /\ last_reply (after (request "GET" endpoint ∅)
                   (answers forbidden_with_message))
     = Replied forbidden_with_message
  /\ 400 <= status_code forbidden_with_message
  /\ json forbidden_with_message = Some (VStr "Token Validation Failed")
  /\ truthy (VStr "Token Validation Failed") = true
  /\ outcome (request "GET" endpoint ∅) (answers forbidden_with_message)
     = Raise (AttributeError "get").
Proof.
  assert (400 <= status_code forbidden_with_message) as Hstatus
    by (vm_compute; discriminate).
  do 3 (split; [reflexivity|]). split; [exact Hstatus|].
  do 2 (split; [reflexivity|]).
  apply (truthy_non_object_body_raises_attribute_error "GET" endpoint ∅
           (answers forbidden_with_message) forbidden_with_message
           "application/json" (VStr "Token Validation Failed"));
    first [reflexivity | exact Hstatus | discriminate].
Defined.
